(** * Cart synchronisation of the web storefront

    A shallow embedding of the cart code of the React storefront
    (frontend/src/lib/api.ts, frontend/src/pages/Index.tsx,
    frontend/src/components/Cart.tsx, ProductDetailModal.tsx and the
    product card), together with the canonical cart store that the
    storefront talks to over HTTP.

    Conventions of the embedding.
    - A JavaScript number that counts things (a quantity) is a [Z]; an
      amount of money is a [Q].  Both stand for the exact value of the
      number: rounding of binary64 arithmetic is outside the model, so
      a sum or a product is the one of the page as long as the page
      computes it exactly, as it does for integers up to
      [Number.MAX_SAFE_INTEGER].
    - A property that may be [undefined] or [null] is an [option].
    - An [async] function is split in the request it sends and the
      function it applies to the response; its result is a [Promise],
      either [Resolved] with a value or [Rejected] with the message of
      the thrown [Error].
    - The component [Index] is a transition system: [step] takes the
      component state and one event (a click, a timer, a settled
      request) to the next state and the list of actions it performs.
    - A read of the cart among the actions is the page asking its query
      client for the cart.  The client sends the request, unless a read
      under the same key is still under way, which the new one may join.
      Which reads are under way is not part of the state, so the reads
      of a step are those the page asks for, an upper bound of the
      requests that leave the browser. *)

From Stdlib Require Import ZArith QArith List String Bool Lia Lqa.
From stdpp Require Import gmap strings list.

Open Scope Z_scope.

(** ** JavaScript helpers *)

(** [o || d] on an optional string: [undefined], [null] and [""] are falsy. *)
Definition js_or (o : option string) (d : string) : string :=
match o with
| Some s => if String.eqb s "" then d else s
| None => d
end.

(** [!!s] on a string. *)
Definition truthy (s : string) : bool := negb (String.eqb s "").

(** [n || d] on the result of [parseInt]: [NaN] (here [None]) and [0] are falsy. *)
Definition js_or_num (n : option Z) (d : Z) : Z :=
match n with
| Some v => if v =? 0 then d else v
| None => d
end.

(** ** Data of api.ts *)

(** [interface CustomerProduct]. *)
Module CustomerProduct.
Record t := mk {
  id : string;
  name : string;
  price : Q;
  description : string;
  color : string;
  size : string;
  product_code : string;
  category : string;
  image_url : string;
  pricebook_entry_id : string
}.
End CustomerProduct.

(** [interface CartItemAdd], the body of [POST cart/{session}/add]. *)
Module CartItemAdd.
Record t := mk {
  product_id : string;
  quantity : Z;
  pricebook_entry_id : string;
  price : Q;
  name : string;
  color : option string;
  size : option string;
  image_url : option string
}.
End CartItemAdd.

(** One element of the [cart: any[]] array of a cart response, with the
    properties that Index.tsx reads from it. *)
Module CartLineJson.
Record t := mk {
  product_id : string;
  name : string;
  price : Q;
  pricebook_entry_id : string;
  image_url : option string;
  color : option string;
  size : option string;
  quantity : Z
}.
End CartLineJson.

(** The value [getCart] resolves to: [{ cart; total; item_count }]. *)
Module CartResponse.
Record t := mk {
  cart : list CartLineJson.t;
  total : Q;
  item_count : Z
}.
End CartResponse.

(** The value [getOrCreateSession] resolves to. *)
Module SessionResponse.
Record t := mk {
  session_id : string;
  cart : list CartLineJson.t;
  total : Q
}.
End SessionResponse.

(** [interface OrderRequest]. *)
Module OrderItem.
Record t := mk {
  product_id : string;
  quantity : Z;
  unit_price : Q;
  pricebook_entry_id : string
}.
End OrderItem.

Module Customer.
Record t := mk {
  name : string;
  email : string;
  phone : option string
}.
End Customer.

Module OrderRequest.
Record t := mk {
  customer : Customer.t;
  items : list OrderItem.t;
  checkout_source : option string
}.
End OrderRequest.

(** ** The HTTP boundary *)

(** The requests that [cartApi] and [orderApi] send with [fetch]. *)
Inductive Request : Type :=
| GetSession (phone : option string)
| GetCart (sessionId : string)
| PostCartAdd (sessionId : string) (item : CartItemAdd.t)
| PutCartItem (sessionId productId : string) (quantity : Z)
| DeleteCartItem (sessionId productId : string)
| DeleteCart (sessionId : string)
| PostOrder (order : OrderRequest.t) (session_id : option string).

(** What a request comes to, as far as the functions of api.ts tell the
    cases apart.
    - [Ok]: a response with [ok] set and its parsed body.
    - [NotOk]: a response without [ok]; [detail] is the property
      [detail] of its JSON body when that is a string, and [None] when
      the body has none or a falsy one.  The two reads do not look at
      the body of such a response, whatever it is.
    - [FetchFailed]: the function fails with an error that it does not
      make itself: [fetch] rejects, or [response.json()] does where the
      function calls it, the body not being JSON, or the body is [null]
      and has no property to read; [message] is the message of that
      error.
    - [NotOkValue]: a response without [ok] whose body is JSON with a
      [detail] that is truthy and not a string, such as a list of
      validation errors; [text] is the message that [new Error(detail)]
      gets, the string form of the value (empty for an empty list). *)
Inductive Response (A : Type) : Type :=
| Ok (json : A)
| NotOk (detail : option string)
| FetchFailed (message : string)
| NotOkValue (text : string).
Arguments Ok {A} json.
Arguments NotOk {A} detail.
Arguments FetchFailed {A} message.
Arguments NotOkValue {A} text.

Inductive Promise (A : Type) : Type :=
| Resolved (value : A)
| Rejected (message : string).
Arguments Resolved {A} value.
Arguments Rejected {A} message.

Definition is_rejected {A : Type} (p : Promise A) : bool :=
match p with
| Resolved _ => false
| Rejected _ => true
end.

(** The body of a mutation response; the storefront reads [message] only. *)
Module MutationResult.
Record t := mk { message : option string }.
End MutationResult.

(** ** cartApi and orderApi (api.ts) *)

Module cartApi.

(** [if (!response.ok) throw new Error('Failed to get session')]. *)
Definition getOrCreateSession (r : Response SessionResponse.t) : Promise SessionResponse.t :=
match r with
| Ok json => Resolved json
| NotOk _ => Rejected "Failed to get session"
| FetchFailed m => Rejected m
| NotOkValue _ => Rejected "Failed to get session"
end.

(** [if (!response.ok) throw new Error('Failed to fetch cart')]. *)
Definition getCart (r : Response CartResponse.t) : Promise CartResponse.t :=
match r with
| Ok json => Resolved json
| NotOk _ => Rejected "Failed to fetch cart"
| FetchFailed m => Rejected m
| NotOkValue _ => Rejected "Failed to fetch cart"
end.

(** [throw new Error(error.detail || 'Failed to add to cart')]. *)
Definition addToCart (r : Response MutationResult.t) : Promise MutationResult.t :=
match r with
| Ok json => Resolved json
| NotOk detail => Rejected (js_or detail "Failed to add to cart")
| FetchFailed m => Rejected m
| NotOkValue text => Rejected text
end.

(** [throw new Error(error.detail || 'Failed to update cart')]. *)
Definition updateCartItem (r : Response MutationResult.t) : Promise MutationResult.t :=
match r with
| Ok json => Resolved json
| NotOk detail => Rejected (js_or detail "Failed to update cart")
| FetchFailed m => Rejected m
| NotOkValue text => Rejected text
end.

(** [throw new Error(error.detail || 'Failed to remove from cart')]. *)
Definition removeFromCart (r : Response MutationResult.t) : Promise MutationResult.t :=
match r with
| Ok json => Resolved json
| NotOk detail => Rejected (js_or detail "Failed to remove from cart")
| FetchFailed m => Rejected m
| NotOkValue text => Rejected text
end.

(** [throw new Error(error.detail || 'Failed to clear cart')]. *)
Definition clearCart (r : Response MutationResult.t) : Promise MutationResult.t :=
match r with
| Ok json => Resolved json
| NotOk detail => Rejected (js_or detail "Failed to clear cart")
| FetchFailed m => Rejected m
| NotOkValue text => Rejected text
end.

End cartApi.

Module orderApi.

(** [const queryParams = sessionId ? `?session_id=${sessionId}` : ''] *)
Definition createOrder_request (order : OrderRequest.t) (sessionId : string) : Request :=
PostOrder order (if truthy sessionId then Some sessionId else None).

(** [throw new Error(error.detail || 'Failed to create order')]. *)
Definition createOrder (r : Response MutationResult.t) : Promise MutationResult.t :=
match r with
| Ok json => Resolved json
| NotOk detail => Rejected (js_or detail "Failed to create order")
| FetchFailed m => Rejected m
| NotOkValue text => Rejected text
end.

End orderApi.

(** ** The cart panel (Cart.tsx) *)

(** [interface CartItem] of Index.tsx and Cart.tsx. *)
Module CartItem.
Record t := mk {
  product : CustomerProduct.t;
  quantity : Z
}.
End CartItem.

Module Cart.

(** [items.reduce((sum, item) => sum + item.product.price * item.quantity, 0)] *)
Definition subtotal (items : list CartItem.t) : Q :=
fold_left
  (fun sum item =>
     (sum + CustomerProduct.price (CartItem.product item) * inject_Z (CartItem.quantity item))%Q)
  items 0%Q.

(** [const tax = subtotal * 0.1; // 10% tax] *)
Definition tax (items : list CartItem.t) : Q := (subtotal items * (1 # 10))%Q.

(** [const total = subtotal + tax;], the figure shown in the row "Total". *)
Definition total (items : list CartItem.t) : Q := (subtotal items + tax items)%Q.

(** The argument of [onUpdateQuantity] in the click handler of the minus
    button: [Math.max(1, item.quantity - 1)]. *)
Definition minusClick (item : CartItem.t) : string * Z :=
(CustomerProduct.id (CartItem.product item), Z.max 1 (CartItem.quantity item - 1)).

(** The plus button: [onUpdateQuantity(item.product.id, item.quantity + 1)];
    the sum is the one of the page for a quantity below
    [Number.MAX_SAFE_INTEGER]. *)
Definition plusClick (item : CartItem.t) : string * Z :=
(CustomerProduct.id (CartItem.product item), CartItem.quantity item + 1).

(** The remove button: [onRemove(item.product.id)]. *)
Definition removeClick (item : CartItem.t) : string :=
CustomerProduct.id (CartItem.product item).

End Cart.

(** ** The quantity field of the product detail modal *)

Module ProductDetailModal.

(** [useState(1)] *)
Definition initialQuantity : Z := 1.

(** The minus button: [setQuantity(Math.max(1, quantity - 1))]. *)
Definition minus (quantity : Z) : Z := Z.max 1 (quantity - 1).

(** The plus button: [setQuantity(quantity + 1)]; the sum is the one of
    the page for a quantity below [Number.MAX_SAFE_INTEGER]. *)
Definition plus (quantity : Z) : Z := quantity + 1.

(** The input: [setQuantity(Math.max(1, parseInt(e.target.value) || 1))];
    [parsed] is the result of [parseInt], [None] for [NaN]. *)
Definition change (parsed : option Z) : Z := Z.max 1 (js_or_num parsed 1).

End ProductDetailModal.

(** ** The page component (Index.tsx) *)

Module Index.

(** The state of the mounted component that the cart code reads or
    writes: the [useState] cells, the data of the products query, the
    query cache entries [["cart", key]], the [quantity] cell of the open
    product detail modal, and the live [setInterval] with the values of
    [sessionId] and [isAdmin] its callback closes over. *)
Record State := mkState {
  mounted : bool;
  isAdmin : bool;
  isCartOpen : bool;
  sessionId : string;
  checkoutDialogOpen : bool;
  selectedProduct : option CustomerProduct.t;
  modalQuantity : Z;
  productsData : option (list CustomerProduct.t);
  queryCache : gmap string CartResponse.t;
  interval : option (string * bool)
}.

Definition set_mounted (b : bool) (st : State) : State :=
mkState b (isAdmin st) (isCartOpen st) (sessionId st) (checkoutDialogOpen st)
  (selectedProduct st) (modalQuantity st) (productsData st) (queryCache st) (interval st).

Definition setIsAdmin (b : bool) (st : State) : State :=
mkState (mounted st) b (isCartOpen st) (sessionId st) (checkoutDialogOpen st)
  (selectedProduct st) (modalQuantity st) (productsData st) (queryCache st) (interval st).

Definition setIsCartOpen (b : bool) (st : State) : State :=
mkState (mounted st) (isAdmin st) b (sessionId st) (checkoutDialogOpen st)
  (selectedProduct st) (modalQuantity st) (productsData st) (queryCache st) (interval st).

Definition setSessionId (s : string) (st : State) : State :=
mkState (mounted st) (isAdmin st) (isCartOpen st) s (checkoutDialogOpen st)
  (selectedProduct st) (modalQuantity st) (productsData st) (queryCache st) (interval st).

Definition setCheckoutDialogOpen (b : bool) (st : State) : State :=
mkState (mounted st) (isAdmin st) (isCartOpen st) (sessionId st) b
  (selectedProduct st) (modalQuantity st) (productsData st) (queryCache st) (interval st).

Definition setSelectedProduct (p : option CustomerProduct.t) (st : State) : State :=
mkState (mounted st) (isAdmin st) (isCartOpen st) (sessionId st) (checkoutDialogOpen st)
  p (modalQuantity st) (productsData st) (queryCache st) (interval st).

Definition setQuantity (q : Z) (st : State) : State :=
mkState (mounted st) (isAdmin st) (isCartOpen st) (sessionId st) (checkoutDialogOpen st)
  (selectedProduct st) q (productsData st) (queryCache st) (interval st).

Definition set_productsData (d : option (list CustomerProduct.t)) (st : State) : State :=
mkState (mounted st) (isAdmin st) (isCartOpen st) (sessionId st) (checkoutDialogOpen st)
  (selectedProduct st) (modalQuantity st) d (queryCache st) (interval st).

Definition set_queryCache (c : gmap string CartResponse.t) (st : State) : State :=
mkState (mounted st) (isAdmin st) (isCartOpen st) (sessionId st) (checkoutDialogOpen st)
  (selectedProduct st) (modalQuantity st) (productsData st) c (interval st).

Definition set_interval (i : option (string * bool)) (st : State) : State :=
mkState (mounted st) (isAdmin st) (isCartOpen st) (sessionId st) (checkoutDialogOpen st)
  (selectedProduct st) (modalQuantity st) (productsData st) (queryCache st) i.

(** What the component does to the outside: a request sent with
    [fetch], or a toast shown to the user. *)
Inductive Action : Type :=
| Fetch (r : Request)
| Toast (title : string) (description : option string) (destructive : bool).

(** What happens to the component. *)
Inductive Event : Type :=
| IntervalFired
| RefetchIntervalFired
| SessionSettled (r : Response SessionResponse.t)
| ProductsSettled (items : list CustomerProduct.t)
| CartSettled (key : string) (r : Response CartResponse.t)
| AddSettled (r : Response MutationResult.t)
| UpdateSettled (r : Response MutationResult.t)
| RemoveSettled (r : Response MutationResult.t)
| OrderSettled (r : Response MutationResult.t)
| CardAddClicked (productId : string)
| CardClicked (product : CustomerProduct.t)
| ModalMinusClicked
| ModalPlusClicked
| ModalChanged (parsed : option Z)
| ModalAddClicked
| ModalCloseClicked
| CartClicked
| CartClosed
| CartMinusClicked (i : nat)
| CartPlusClicked (i : nat)
| CartRemoveClicked (i : nat)
| CheckoutClicked
| CheckoutSubmitted (data : Customer.t)
| AdminLoggedIn (email : string)
| ModeToggled
| Unmounted.

(** [data: cartData] of the cart query: the cache entry of the current key. *)
Definition cartData (st : State) : option CartResponse.t :=
queryCache st !! sessionId st.

(** The body of the [map] callback, "Convert backend cart to frontend format". *)
Definition toCartItem (item : CartLineJson.t) : CartItem.t :=
CartItem.mk
  (CustomerProduct.mk
     (CartLineJson.product_id item)
     (CartLineJson.name item)
     (CartLineJson.price item)
     ""
     (js_or (CartLineJson.color item) "")
     (js_or (CartLineJson.size item) "")
     ""
     ""
     (js_or (CartLineJson.image_url item) "")
     (CartLineJson.pricebook_entry_id item))
  (CartLineJson.quantity item).

(** [const cart: CartItem[] = cartData?.cart?.map(...) || []] *)
Definition cart (st : State) : list CartItem.t :=
match cartData st with
| Some data => map toCartItem (CartResponse.cart data)
| None => []
end.

(** The prop [cartItemCount] of the header:
    [cart.reduce((sum, item) => sum + item.quantity, 0)]. *)
Definition cartItemCount (st : State) : Z :=
fold_left (fun sum item => sum + CartItem.quantity item) (cart st) 0.

(** [enabled: !!sessionId && !isAdmin] of the cart query. *)
Definition enabled (st : State) : bool :=
truthy (sessionId st) && negb (isAdmin st).

(** Modelled from the spec: the number of times the query client retries
    a failed query before it reports the failure.  The client is
    constructed outside Index.tsx, whose [useQuery] call sets no [retry]
    option; the spec has no automatic retry between two ticks. *)
Definition retry : nat := 0.

(** [queryClient.invalidateQueries({ queryKey: ["cart", key] })]: the
    query is marked stale and the query client is asked to fetch it
    again when it is observed by an enabled [useQuery], that is when the
    component is mounted, the cart query is enabled and [key] is its
    current key. *)
Definition invalidateQueries (st : State) (key : string) : list Action :=
if mounted st && enabled st && String.eqb key (sessionId st)
then [Fetch (GetCart key)]
else [].

(** The dependency list [[sessionId, queryClient, isAdmin]] of the effect. *)
Definition depsChanged (old new : State) : bool :=
negb (String.eqb (sessionId old) (sessionId new))
|| negb (Bool.eqb (isAdmin old) (isAdmin new)).

(** A render after a state change.  When the dependencies changed the
    effect is cleaned up ([clearInterval]) and run again: [initSession]
    asks for the session and a new interval closes over the new values;
    the cart query, when enabled under its new options, fetches. *)
Definition commit (old new : State) : State * list Action :=
if depsChanged old new
then (set_interval (Some (sessionId new, isAdmin new)) new,
      Fetch (GetSession None)
      :: (if enabled new then [Fetch (GetCart (sessionId new))] else []))
else (new, []).

(** The state after the first render and its effect, and what the mount sends. *)
Definition initial : State :=
mkState true false false "" false None ProductDetailModal.initialQuantity None ∅
  (Some ("", false)).

Definition mountActions : list Action := [Fetch (GetSession None)].

(** [mutationFn] of [addToCartMutation], through [handleAddToCart]. *)
Definition handleAddToCart (st : State) (productId : string) (quantity : Z) : list Action :=
match
  match productsData st with
  | Some items => find (fun p => String.eqb (CustomerProduct.id p) productId) items
  | None => None
  end
with
| Some product =>
    [Fetch (PostCartAdd (sessionId st)
       (CartItemAdd.mk
          (CustomerProduct.id product)
          quantity
          (CustomerProduct.pricebook_entry_id product)
          (CustomerProduct.price product)
          (CustomerProduct.name product)
          (Some (CustomerProduct.color product))
          (Some (CustomerProduct.size product))
          (Some (CustomerProduct.image_url product))))]
| None => [Toast "Error" (Some "Product not found") true]
end.

(** [updateCartMutation.mutate({ productId, quantity })] *)
Definition handleUpdateQuantity (st : State) (productId : string) (quantity : Z) : list Action :=
[Fetch (PutCartItem (sessionId st) productId quantity)].

(** [removeFromCartMutation.mutate(productId)] *)
Definition handleRemoveFromCart (st : State) (productId : string) : list Action :=
[Fetch (DeleteCartItem (sessionId st) productId)].

(** [handleCheckoutSubmit]: the order is built from the displayed cart. *)
Definition handleCheckoutSubmit (st : State) (data : Customer.t) : list Action :=
[Fetch (orderApi.createOrder_request
   (OrderRequest.mk data
      (map (fun item =>
              OrderItem.mk
                (CustomerProduct.id (CartItem.product item))
                (CartItem.quantity item)
                (CustomerProduct.price (CartItem.product item))
                (CustomerProduct.pricebook_entry_id (CartItem.product item)))
           (cart st))
      (Some "Web"))
   (sessionId st))].

(** One event of the mounted component.  A settled cart read writes the
    query cache on success; on failure the component has no handler (only
    [data] is taken from [useQuery]) and the query client alone decides
    whether to ask again.  The callbacks of the four mutations are the
    [onSuccess] and [onError] options given to [useMutation]; a mutation
    without [onError] leaves a rejection in the mutation object, which
    nothing reads. *)
Definition step (st : State) (e : Event) : State * list Action :=
match e with
| IntervalFired =>
    match interval st with
    | Some (sid, adm) =>
        (st, if truthy sid && negb adm then invalidateQueries st sid else [])
    | None => (st, [])
    end
| RefetchIntervalFired =>
    (st, if mounted st && enabled st then [Fetch (GetCart (sessionId st))] else [])
| SessionSettled r =>
    if mounted st then
      match cartApi.getOrCreateSession r with
      | Resolved session => commit st (setSessionId (SessionResponse.session_id session) st)
      | Rejected _ => (st, [])
      end
    else (st, [])
| ProductsSettled items =>
    (if mounted st then set_productsData (Some items) st else st, [])
| CartSettled key r =>
    match cartApi.getCart r with
    | Resolved data => (set_queryCache (<[key := data]> (queryCache st)) st, [])
    | Rejected _ => (st, if (0 <? retry)%nat then [Fetch (GetCart key)] else [])
    end
| AddSettled r =>
    match cartApi.addToCart r with
    | Resolved data =>
        (st, invalidateQueries st (sessionId st)
             ++ [Toast "Added to cart" (MutationResult.message data) false])
    | Rejected message => (st, [Toast "Error" (Some message) true])
    end
| UpdateSettled r =>
    match cartApi.updateCartItem r with
    | Resolved _ => (st, invalidateQueries st (sessionId st))
    | Rejected _ => (st, [])
    end
| RemoveSettled r =>
    match cartApi.removeFromCart r with
    | Resolved _ =>
        (st, invalidateQueries st (sessionId st) ++ [Toast "Removed from cart" None false])
    | Rejected _ => (st, [])
    end
| OrderSettled r =>
    match orderApi.createOrder r with
    | Resolved _ =>
        (if mounted st then setIsCartOpen false (setCheckoutDialogOpen false st) else st,
         invalidateQueries st (sessionId st)
         ++ [Toast "Order placed!" (Some "Your order has been placed successfully") false])
    | Rejected message => (st, [Toast "Error" (Some message) true])
    end
| CardAddClicked productId =>
    (st, if mounted st then handleAddToCart st productId 1 else [])
| CardClicked product =>
    if mounted st then
      (setSelectedProduct (Some product)
         (match selectedProduct st with
          | Some _ => st
          | None => setQuantity ProductDetailModal.initialQuantity st
          end), [])
    else (st, [])
| ModalMinusClicked =>
    match selectedProduct st with
    | Some _ => (setQuantity (ProductDetailModal.minus (modalQuantity st)) st, [])
    | None => (st, [])
    end
| ModalPlusClicked =>
    match selectedProduct st with
    | Some _ => (setQuantity (ProductDetailModal.plus (modalQuantity st)) st, [])
    | None => (st, [])
    end
| ModalChanged parsed =>
    match selectedProduct st with
    | Some _ => (setQuantity (ProductDetailModal.change parsed) st, [])
    | None => (st, [])
    end
| ModalAddClicked =>
    match selectedProduct st with
    | Some product =>
        (setSelectedProduct None st,
         handleAddToCart st (CustomerProduct.id product) (modalQuantity st))
    | None => (st, [])
    end
| ModalCloseClicked => (setSelectedProduct None st, [])
| CartClicked => (if mounted st then setIsCartOpen true st else st, [])
| CartClosed => (if mounted st then setIsCartOpen false st else st, [])
| CartMinusClicked i =>
    match (if mounted st then cart st !! i else None) with
    | Some item =>
        let '(productId, quantity) := Cart.minusClick item in
        (st, handleUpdateQuantity st productId quantity)
    | None => (st, [])
    end
| CartPlusClicked i =>
    match (if mounted st then cart st !! i else None) with
    | Some item =>
        let '(productId, quantity) := Cart.plusClick item in
        (st, handleUpdateQuantity st productId quantity)
    | None => (st, [])
    end
| CartRemoveClicked i =>
    match (if mounted st then cart st !! i else None) with
    | Some item => (st, handleRemoveFromCart st (Cart.removeClick item))
    | None => (st, [])
    end
| CheckoutClicked => (if mounted st then setCheckoutDialogOpen true st else st, [])
| CheckoutSubmitted data =>
    (st, if mounted st then handleCheckoutSubmit st data else [])
| AdminLoggedIn email =>
    if mounted st then
      let '(st', acts) := commit st (setIsAdmin true st) in
      (st', Toast "Welcome to Admin Panel" (Some ("Logged in as " ++ email)%string) false
            :: acts)
    else (st, [])
| ModeToggled =>
    if mounted st then
      if isAdmin st then
        let '(st', acts) := commit st (setIsAdmin false st) in
        (st', Toast "Switched to Customer Mode"
                (Some "You are now viewing the customer storefront") false
              :: acts)
      else (st, [])
    else (st, [])
| Unmounted => (set_interval None (set_mounted false st), [])
end.

(** A run of the component: the events in order, the actions of all steps. *)
Fixpoint run (st : State) (events : list Event) : State * list Action :=
match events with
| [] => (st, [])
| e :: rest =>
    let '(st1, acts1) := step st e in
    let '(st2, acts2) := run st1 rest in
    (st2, acts1 ++ acts2)
end.

(** The cart reads among a list of actions. *)
Definition isCartRead (a : Action) : bool :=
match a with
| Fetch (GetCart _) => true
| _ => false
end.

(** The requests that empty a cart among a list of actions. *)
Definition isClearCart (a : Action) : bool :=
match a with
| Fetch (DeleteCart _) => true
| _ => false
end.

(** The quantity that a request asks the store to add or to set. *)
Definition requestedQuantity (a : Action) : option Z :=
match a with
| Fetch (PostCartAdd _ item) => Some (CartItemAdd.quantity item)
| Fetch (PutCartItem _ _ quantity) => Some quantity
| _ => None
end.

End Index.

(** ** The canonical cart store

    The store behind the HTTP interface is the backend of the
    repository, which is not among the sources of the storefront.  It is
    modelled from sections 3, 4.2, 6 and 7 of the specification. *)

Module CartLine.
(** Modelled from the spec: the cart line of section 3, whose backend
    definition is missing.  A line has its product id, a quantity, and
    the price and display snapshot captured when the line was created. *)
Record t := mk {
  product_id : string;
  quantity : Z;
  unit_price : Q;
  name : string;
  color : option string;
  size : option string;
  image_url : option string;
  pricebook_entry_id : string
}.
End CartLine.

Module CartStore.

(** Modelled from the spec: the error kinds of section 7 raised by the
    store, which the missing backend defines. *)
Inductive Error : Type :=
| SessionNotFound
| ProductNotFound
| ValidationError.

(** Modelled from the spec: the missing result of a store operation,
    "the resulting cart" or one of the errors. *)
Inductive Result (A : Type) : Type :=
| Success (value : A)
| Failure (e : Error).
Arguments Success {A} value.
Arguments Failure {A} e.

(** Modelled from the spec: the missing store itself, one cart per
    session, a cart being its lines in insertion order. *)
Abbreviation Store := (gmap string (list CartLine.t)).

(** Modelled from the spec: the missing creation of a line, "create a new
    line with the given snapshot". *)
Definition newLine (item : CartItemAdd.t) : CartLine.t :=
CartLine.mk
  (CartItemAdd.product_id item)
  (CartItemAdd.quantity item)
  (CartItemAdd.price item)
  (CartItemAdd.name item)
  (CartItemAdd.color item)
  (CartItemAdd.size item)
  (CartItemAdd.image_url item)
  (CartItemAdd.pricebook_entry_id item).

(** Modelled from the spec: the missing update of a line, its quantity
    replaced and its snapshot left "as originally captured". *)
Definition withQuantity (q : Z) (l : CartLine.t) : CartLine.t :=
CartLine.mk
  (CartLine.product_id l) q (CartLine.unit_price l) (CartLine.name l)
  (CartLine.color l) (CartLine.size l) (CartLine.image_url l)
  (CartLine.pricebook_entry_id l).

(** Modelled from the spec: the missing test on the key of a line,
    "product_id (unique key within a cart)". *)
Definition hasId (productId : string) (l : CartLine.t) : bool :=
String.eqb (CartLine.product_id l) productId.

(** Modelled from the spec: the missing [add] on the lines of one cart.
    "If product_id already has a line, increment its quantity by quantity
    (never overwrite) and leave its price snapshot as originally
    captured; otherwise create a new line with the given snapshot." *)
Fixpoint addLine (lines : list CartLine.t) (item : CartItemAdd.t) : list CartLine.t :=
match lines with
| [] => [newLine item]
| l :: rest =>
    if hasId (CartItemAdd.product_id item) l
    then withQuantity (CartLine.quantity l + CartItemAdd.quantity item) l :: rest
    else l :: addLine rest item
end.

(** Modelled from the spec: the missing [setQuantity] on the lines of one
    cart; [None] when no line has the product id. *)
Fixpoint setLine (lines : list CartLine.t) (productId : string) (q : Z)
  : option (list CartLine.t) :=
match lines with
| [] => None
| l :: rest =>
    if hasId productId l
    then Some (withQuantity q l :: rest)
    else option_map (cons l) (setLine rest productId q)
end.

(** Modelled from the spec: the missing [remove] on the lines of one cart. *)
Definition removeLine (lines : list CartLine.t) (productId : string) : list CartLine.t :=
List.filter (fun l => negb (hasId productId l)) lines.

(** The line of a product in a cart and its quantity, [0] when it has none. *)
Definition lineOf (productId : string) (lines : list CartLine.t) : option CartLine.t :=
List.find (hasId productId) lines.

Definition quantityOf (productId : string) (lines : list CartLine.t) : Z :=
match lineOf productId lines with
| Some l => CartLine.quantity l
| None => 0
end.

(** Modelled from the spec: the derived figures of section 3, computed
    by the missing backend: "total = sum of line.unit_price x
    line.quantity, item_count = sum of line.quantity". *)
Fixpoint total (lines : list CartLine.t) : Q :=
match lines with
| [] => 0%Q
| l :: rest => (CartLine.unit_price l * inject_Z (CartLine.quantity l) + total rest)%Q
end.

Fixpoint item_count (lines : list CartLine.t) : Z :=
match lines with
| [] => 0
| l :: rest => CartLine.quantity l + item_count rest
end.

(** The operations of section 4.2 are keyed by session.  Each mutation
    returns the store after the operation and either the resulting cart
    or the error; a failed operation returns the store it was given. *)

(** Modelled from the spec: the missing [read], "read(session_id) ->
    Cart". *)
Definition read (store : Store) (sessionId : string) : Result (list CartLine.t) :=
match store !! sessionId with
| Some lines => Success lines
| None => Failure SessionNotFound
end.

(** Modelled from the spec: the missing [add] of section 4.2, which
    "fails with SessionNotFound if the session does not exist". *)
Definition add (store : Store) (sessionId : string) (item : CartItemAdd.t)
  : Store * Result (list CartLine.t) :=
match store !! sessionId with
| Some lines =>
    let lines' := addLine lines item in
    (<[sessionId := lines']> store, Success lines')
| None => (store, Failure SessionNotFound)
end.

(** Modelled from the spec: the missing [setQuantity] of section 4.2.
    "Quantity must be at least 1; setting a lower value is rejected with
    a ValidationError", and that "before reaching CartStore" (section
    7); it "fails with ProductNotFound if no such line exists". *)
Definition setQuantity (store : Store) (sessionId productId : string) (q : Z)
  : Store * Result (list CartLine.t) :=
if q <? 1 then (store, Failure ValidationError)
else
  match store !! sessionId with
  | Some lines =>
      match setLine lines productId q with
      | Some lines' => (<[sessionId := lines']> store, Success lines')
      | None => (store, Failure ProductNotFound)
      end
  | None => (store, Failure SessionNotFound)
  end.

(** Modelled from the spec: the missing [remove] of section 4.2,
    "removing an absent line is a no-op success". *)
Definition remove (store : Store) (sessionId productId : string)
  : Store * Result (list CartLine.t) :=
match store !! sessionId with
| Some lines =>
    let lines' := removeLine lines productId in
    (<[sessionId := lines']> store, Success lines')
| None => (store, Failure SessionNotFound)
end.

(** Modelled from the spec: the missing [clear] of section 4.2, which
    "empties all lines". *)
Definition clear (store : Store) (sessionId : string) : Store * Result (list CartLine.t) :=
match store !! sessionId with
| Some _ => (<[sessionId := []]> store, Success [])
| None => (store, Failure SessionNotFound)
end.

(** A sequence of [add] calls against one session: the store after the
    calls and whether every call succeeded. *)
Fixpoint addAll (store : Store) (sessionId : string) (items : list CartItemAdd.t)
  : Store * bool :=
match items with
| [] => (store, true)
| item :: rest =>
    match add store sessionId item with
    | (store', Success _) => addAll store' sessionId rest
    | (store', Failure _) => (store', false)
    end
end.

(** Modelled from the spec: the missing rendering of a line in the body
    of [GET cart/{session_id}], "{lines: [...], total, item_count}". *)
Definition toJson (l : CartLine.t) : CartLineJson.t :=
CartLineJson.mk
  (CartLine.product_id l) (CartLine.name l) (CartLine.unit_price l)
  (CartLine.pricebook_entry_id l) (CartLine.image_url l) (CartLine.color l)
  (CartLine.size l) (CartLine.quantity l).

(** Modelled from the spec: the missing body of [GET cart/{session_id}]. *)
Definition cartResponse (lines : list CartLine.t) : CartResponse.t :=
CartResponse.mk (map toJson lines) (total lines) (item_count lines).

(** Modelled from the spec: the missing [detail] of an error response,
    here the name of the error kind of section 7. *)
Definition errorDetail (e : Error) : string :=
match e with
| SessionNotFound => "SessionNotFound"
| ProductNotFound => "ProductNotFound"
| ValidationError => "ValidationError"
end.

(** Modelled from the spec: the missing handler of [GET cart/{session_id}]. *)
Definition getCart (store : Store) (sessionId : string) : Response CartResponse.t :=
match read store sessionId with
| Success lines => Ok (cartResponse lines)
| Failure e => NotOk (Some (errorDetail e))
end.

(** Modelled from the spec: the missing response to a mutation, an
    error for a failed operation. *)
Definition respond (r : Store * Result (list CartLine.t))
  : Store * Response MutationResult.t :=
match r with
| (store, Success _) => (store, Ok (MutationResult.mk None))
| (store, Failure e) => (store, NotOk (Some (errorDetail e)))
end.

(** Modelled from the spec: the missing handler of
    [PUT cart/{session_id}/item/{product_id}?quantity=N], "error if line
    absent or quantity < 1". *)
Definition putItem (store : Store) (sessionId productId : string) (q : Z)
  : Store * Response MutationResult.t :=
respond (setQuantity store sessionId productId q).

End CartStore.

(** ** The figures of the specification, in its own words *)

(** "Sum of unit_price x quantity over all lines", over the lines of a
    cart view. *)
Fixpoint sumOfLines (items : list CartItem.t) : Q :=
match items with
| [] => 0%Q
| item :: rest =>
    (CustomerProduct.price (CartItem.product item) * inject_Z (CartItem.quantity item)
     + sumOfLines rest)%Q
end.

(** "item_count = sum of line.quantity", over the lines of a fetched cart. *)
Fixpoint sumOfQuantities (lines : list CartLineJson.t) : Z :=
match lines with
| [] => 0
| l :: rest => CartLineJson.quantity l + sumOfQuantities rest
end.

(** "The sum of the added quantities" of a sequence of add calls. *)
Definition addedQuantity (items : list CartItemAdd.t) : Z :=
fold_right (fun item sum => CartItemAdd.quantity item + sum) 0 items.

(** The cart of the specification's example, product ids with their
    quantities, as lines of the store. *)
Definition exampleLine (productId : string) (q : Z) : CartLine.t :=
CartLine.mk productId q 10 "Watch" None None None "pbe".

Definition exampleAdd (productId : string) (q : Z) : CartItemAdd.t :=
CartItemAdd.mk productId q "pbe" 10 "Watch" None None None.

(** What one add does to the line of the added product. *)
Definition bump (o : option CartLine.t) (item : CartItemAdd.t) : option CartLine.t :=
Some match o with
     | Some l => CartStore.withQuantity (CartLine.quantity l + CartItemAdd.quantity item) l
     | None => CartStore.newLine item
     end.

(** ** Invariants of the component *)

(** The callback of the live interval closes over the current values of
    [sessionId] and [isAdmin]: the effect depends on both and sets a new
    interval whenever one of them changes. *)
Definition closureCurrent (st : Index.State) : Prop :=
match Index.interval st with
| Some (sid, adm) => sid = Index.sessionId st /\ adm = Index.isAdmin st
| None => True
end.

(** The component after its teardown: unmounted, its interval cleared. *)
Definition tornDown (st : Index.State) : Prop :=
Index.mounted st = false /\ Index.interval st = None.

(** The invariant of section 3 on the lines of a fetched cart: "quantity
    must be at least 1 while the line exists". *)
Definition quantitiesPositive (lines : list CartLineJson.t) : Prop :=
Forall (fun l => 1 <= CartLineJson.quantity l) lines.

(** The events whose fetched carts satisfy that invariant. *)
Definition canonicalEvent (e : Index.Event) : Prop :=
match e with
| Index.CartSettled _ (Ok data) => quantitiesPositive (CartResponse.cart data)
| _ => True
end.

(** The quantity in the modal is at least 1 and so is every quantity in
    the query cache. *)
Definition quantitiesOk (st : Index.State) : Prop :=
1 <= Index.modalQuantity st
/\ map_Forall (fun _ data => quantitiesPositive (CartResponse.cart data))
     (Index.queryCache st).

(** Every request of a list of actions that adds or sets a quantity asks
    for at least 1. *)
Definition requestsAtLeastOne (actions : list Index.Action) : Prop :=
Forall (fun a => forall q, Index.requestedQuantity a = Some q -> 1 <= q) actions.

(** ** The rest of the storefront *)

(** The events that settle a read of the cart or a session request. *)
Definition settlesReadOrSession (e : Index.Event) : bool :=
match e with
| Index.CartSettled _ _ => true
| Index.SessionSettled _ => true
| _ => false
end.

(** The ticks of the two timers of the page. *)
Definition isTick (e : Index.Event) : bool :=
match e with
| Index.IntervalFired => true
| Index.RefetchIntervalFired => true
| _ => false
end.

(** The session requests among a list of actions. *)
Definition isSessionRequest (a : Index.Action) : bool :=
match a with
| Index.Fetch (GetSession _) => true
| _ => false
end.

(** The amount of an order as its lines state it: unit price times
    quantity, added up over the items of the request in their order, the
    way the cart panel adds up its Subtotal. *)
Definition orderAmount (items : list OrderItem.t) : Q :=
fold_left
  (fun sum i => (sum + OrderItem.unit_price i * inject_Z (OrderItem.quantity i))%Q)
  items 0%Q.

(** [[a, b].filter(Boolean).join(sep)], the line under the name of a
    product on its card (part_000) and on its line of the cart panel
    (Cart.tsx); each file has its own separator. *)
Definition joinTruthy (sep : string) (parts : list string) : string :=
String.concat sep (List.filter truthy parts).

Module ProductCard.

(** [{(color || size) && (<p>...</p>)}]: whether the card shows the line. *)
Definition showsSubtitle (color size : string) : bool := truthy color || truthy size.

End ProductCard.

Module Header.

(** [{!isAdmin && ( ... {cartItemCount > 0 && (<Badge>...)} ...)}] *)
Definition showsBadge (isAdmin : bool) (cartItemCount : Z) : bool :=
negb isAdmin && (0 <? cartItemCount).

End Header.

Module CartPanel.

(** [items.length === 0 ? (the empty message) : (the lines and the footer)] *)
Definition showsEmpty (items : list CartItem.t) : bool := (length items =? 0)%nat.

End CartPanel.

Module IndexRender.

(** The badge "Your cart is synced with WhatsApp" of the customer
    branch: [{sessionId && cart.length > 0 && (...)}]. *)
Definition showsSyncBadge (st : Index.State) : bool :=
negb (Index.isAdmin st) && truthy (Index.sessionId st) && (0 <? length (Index.cart st))%nat.

End IndexRender.

Module AdminLoginDialog.

(** [handleSubmit]: [if (!email || !password) return;], otherwise
    [onLogin(email, password)] is called when the timeout fires.  The
    result is the arguments of that call, [None] when there is none. *)
Definition handleSubmit (email password : string) : option (string * string) :=
if negb (truthy email) || negb (truthy password) then None else Some (email, password).

End AdminLoginDialog.

(** The submit of the login dialog followed by [handleAdminLogin] of the
    page, which takes the email and ignores the password. *)
Definition submitAdminLogin (st : Index.State) (email password : string)
  : Index.State * list Index.Action :=
match AdminLoginDialog.handleSubmit email password with
| Some (email', _) => Index.step st (Index.AdminLoggedIn email')
| None => (st, [])
end.

(** ** The product filters (Index.tsx) and the products request (api.ts) *)

(** The three [useState] cells of the filters. *)
Module Filters.
Record t := mk {
  searchQuery : string;
  selectedCategories : list string;
  priceRange : Q * Q
}.
End Filters.

(** The value of a query parameter before [toString]. *)
Inductive ParamValue : Type :=
| PString (s : string)
| PNumber (n : Q).

(** What the user does to the filters: typing in the search box, choosing
    an option of the category select, typing a price bound (the event
    carries [Number(e.target.value)]), and "Reset filters". *)
Inductive FilterEvent : Type :=
| SearchChanged (value : string)
| CategoryChanged (value : string)
| MinPriceChanged (value : Q)
| MaxPriceChanged (value : Q)
| FiltersCleared.

Module IndexFilters.

(** [useState("")], [useState([])], [useState([0, 1000])]. *)
Definition initial : Filters.t := Filters.mk "" [] (0%Q, 1000%Q).

(** [handleClearFilters] *)
Definition handleClearFilters (f : Filters.t) : Filters.t := Filters.mk "" [] (0%Q, 1000%Q).

(** The [onChange] handlers of the search box, the category select and
    the two price inputs, and the reset link. *)
Definition step (f : Filters.t) (e : FilterEvent) : Filters.t :=
match e with
| SearchChanged value =>
    Filters.mk value (Filters.selectedCategories f) (Filters.priceRange f)
| CategoryChanged value =>
    Filters.mk (Filters.searchQuery f)
      (if truthy value then [value] else [])
      (Filters.priceRange f)
| MinPriceChanged value =>
    Filters.mk (Filters.searchQuery f) (Filters.selectedCategories f)
      (value, snd (Filters.priceRange f))
| MaxPriceChanged value =>
    Filters.mk (Filters.searchQuery f) (Filters.selectedCategories f)
      (fst (Filters.priceRange f), value)
| FiltersCleared => handleClearFilters f
end.

(** The argument of [productApi.getProducts] in the [queryFn] of the
    products query, as the entries of the object in their order; an
    [undefined] value is [None]. *)
Definition productsParams (f : Filters.t) : list (string * option ParamValue) :=
[ ("query"%string,
   if truthy (Filters.searchQuery f) then Some (PString (Filters.searchQuery f)) else None);
  ("category"%string,
   match Filters.selectedCategories f with
   | c :: _ => Some (PString c)
   | [] => None
   end);
  ("price_min"%string, Some (PNumber (fst (Filters.priceRange f))));
  ("price_max"%string, Some (PNumber (snd (Filters.priceRange f)))) ].

(** The condition of the line "n results found / Reset filters":
    [searchQuery || selectedCategories.length > 0 || priceRange[0] > 0
     || priceRange[1] < 1000]. *)
Definition showsReset (f : Filters.t) : bool :=
truthy (Filters.searchQuery f)
|| (0 <? length (Filters.selectedCategories f))%nat
|| negb (Qle_bool (fst (Filters.priceRange f)) 0)
|| negb (Qle_bool 1000 (snd (Filters.priceRange f))).

End IndexFilters.

Module productApi.

(** The loop of [getProducts] and [adminGetProducts] over
    [Object.entries(params)]: an entry whose value is neither
    [undefined] nor [null] is appended to the query parameters. *)
Definition queryParams (params : list (string * option ParamValue))
  : list (string * ParamValue) :=
fold_left
  (fun queryParams entry =>
     match snd entry with
     | Some value => queryParams ++ [(fst entry, value)]
     | None => queryParams
     end)
  params [].

End productApi.

(** ** A failed read and the query client *)



Module QueryClient.

(** The two options that decide what becomes of a query that failed.
    The cart query of Index.tsx sets neither, so both are those of the
    query client. *)
Record t := mk {
  retry : nat;
  retryDelay : nat -> Z
}.

(** The values of the library when nothing sets them: three retries,
    the retry after [failureCount] failures coming after
    [Math.min(1000 * 2 ** failureCount, 30000)] milliseconds. *)
Definition default : t :=
mk 3 (fun failureCount => Z.min (1000 * 2 ^ Z.of_nat failureCount) 30000).


End QueryClient.


(** ** The core and the placement of an order *)

(** Modelled from the spec: what the missing core does for the placement
    of an order, section 6: "Consumers (checkout) read the cart once at
    order-placement time and are responsible for clearing it after a
    successful order; cart clearing is not triggered automatically by
    this core."  The core hands out the cart of the session and returns
    the store it was given. *)
Definition placeOrder (store : CartStore.Store) (sessionId : string)
  : CartStore.Store * CartStore.Result (list CartLine.t) :=
(store, CartStore.read store sessionId).

(** ** Quantities that are not negative *)

(** The lines of a fetched cart have quantities of zero or more. *)
Definition quantitiesNotNegative (lines : list CartLineJson.t) : Prop :=
Forall (fun l => 0 <= CartLineJson.quantity l) lines.

(** The events whose fetched carts have such quantities. *)
Definition fetchesNotNegative (e : Index.Event) : Prop :=
match e with
| Index.CartSettled _ (Ok data) => quantitiesNotNegative (CartResponse.cart data)
| _ => True
end.

(** Every cart in the query cache has such quantities. *)
Definition cacheNotNegative (st : Index.State) : Prop :=
map_Forall (fun _ data => quantitiesNotNegative (CartResponse.cart data))
  (Index.queryCache st).

(** The clicks on the plus button of a line of the cart panel. *)
Definition isPlusClick (e : Index.Event) : bool :=
match e with
| Index.CartPlusClicked _ => true
| _ => false
end.

(** [Number.MAX_SAFE_INTEGER], the largest integer up to which adding 1
    to a JavaScript number is exact. *)
Definition maxSafeInteger : Z := 9007199254740991.

(** The integers that a JavaScript number holds exactly, so that adding
    1 to one below the upper end, or taking 1 from one above the lower
    end, gives the integer next to it. *)
Definition safeInteger (q : Z) : Prop := - maxSafeInteger <= q <= maxSafeInteger.

(** * Properties *)

(** Case analysis on every test and match of the goal. *)
Ltac split_cases :=
  repeat (simpl;
          match goal with
          | |- context [if ?b then _ else _] => destruct b
          | |- context [match ?x with _ => _ end] => destruct x
          end);
  simpl.

(** ** Helper lemmas *)

Lemma js_or_empty (o : option string) : js_or o "" = default ""%string o.
Proof.
destruct o as [s|]; simpl; [|reflexivity].
destruct (String.eqb_spec s ""); congruence.
Qed.

Lemma subtotal_from (items : list CartItem.t) (acc : Q) :
  (fold_left
     (fun sum item =>
        sum + CustomerProduct.price (CartItem.product item) * inject_Z (CartItem.quantity item))
     items acc == acc + sumOfLines items)%Q.
Proof.
revert acc. induction items as [|item rest IH]; intros acc; simpl.
- ring.
- rewrite IH. ring.
Qed.

Lemma count_from (items : list CartItem.t) (acc : Z) :
  fold_left (fun sum item => sum + CartItem.quantity item) items acc
  = acc + fold_right (fun item sum => CartItem.quantity item + sum) 0 items.
Proof.
revert acc. induction items as [|item rest IH]; intros acc; simpl.
- lia.
- rewrite IH. lia.
Qed.

Lemma quantities_of_view (lines : list CartLineJson.t) :
  fold_right (fun item sum => CartItem.quantity item + sum) 0 (map Index.toCartItem lines)
  = sumOfQuantities lines.
Proof.
induction lines as [|l rest IH]; simpl; [reflexivity|].
now rewrite IH.
Qed.

Lemma cartData_after_read (st : Index.State) (data : CartResponse.t) :
  Index.cartData (fst (Index.step st (Index.CartSettled (Index.sessionId st) (Ok data))))
  = Some data.
Proof.
unfold Index.cartData. simpl. apply lookup_insert_eq.
Qed.

(** ** The cart view after a poll *)

(** C1. When a read of the canonical cart settles with a response, the
    cart view of the storefront is exactly the image of the lines of the
    response, line by line and in their order: product id, name, price,
    price book entry and quantity are those of the line, the display
    fields image, colour and size are those of the line or the empty
    string when absent, and description, product code and category are
    empty.  The view is a function of the response alone: nothing of the
    state before the read, and so nothing of an edit that the store has
    not confirmed, is left in it. *)
Theorem poll_replaces_cart_view (st : Index.State) (resp : CartResponse.t) :
  let st' := fst (Index.step st (Index.CartSettled (Index.sessionId st) (Ok resp))) in
  Index.cart st' = map Index.toCartItem (CartResponse.cart resp)
  /\ length (Index.cart st') = length (CartResponse.cart resp)
  /\ (forall other : Index.State,
        Index.cart
          (fst (Index.step (Index.setSessionId (Index.sessionId st) other)
                  (Index.CartSettled (Index.sessionId st) (Ok resp))))
        = Index.cart st')
  /\ (forall line : CartLineJson.t,
        let item := Index.toCartItem line in
        CustomerProduct.id (CartItem.product item) = CartLineJson.product_id line
        /\ CustomerProduct.name (CartItem.product item) = CartLineJson.name line
        /\ CustomerProduct.price (CartItem.product item) = CartLineJson.price line
        /\ CartItem.quantity item = CartLineJson.quantity line
        /\ CustomerProduct.pricebook_entry_id (CartItem.product item)
           = CartLineJson.pricebook_entry_id line
        /\ CustomerProduct.image_url (CartItem.product item)
           = default ""%string (CartLineJson.image_url line)
        /\ CustomerProduct.color (CartItem.product item)
           = default ""%string (CartLineJson.color line)
        /\ CustomerProduct.size (CartItem.product item)
           = default ""%string (CartLineJson.size line)
        /\ CustomerProduct.description (CartItem.product item) = ""%string
        /\ CustomerProduct.product_code (CartItem.product item) = ""%string
        /\ CustomerProduct.category (CartItem.product item) = ""%string).
Proof.
intros st'.
assert (Hview : Index.cart st' = map Index.toCartItem (CartResponse.cart resp)).
{ unfold Index.cart, st'. now rewrite cartData_after_read. }
split; [exact Hview|].
split; [rewrite Hview; apply length_map|].
split.
- intros other. rewrite Hview.
  pose proof (cartData_after_read (Index.setSessionId (Index.sessionId st) other) resp) as H.
  unfold Index.cart. simpl in H. simpl. now rewrite H.
- intros line item. unfold item, Index.toCartItem; simpl.
  rewrite !js_or_empty. repeat split; reflexivity.
Qed.

(** ** The figures of the cart panel *)

(** C2, as the claim states it, fails: for a cart of one line, one unit
    at the price 10, the row "Total" of the cart panel shows 11 while the
    sum of unit price times quantity over the lines is 10. *)
Lemma displayed_total_is_not_the_line_sum :
  let item :=
    CartItem.mk (CustomerProduct.mk "p1" "Watch" 10 "" "" "" "" "" "" "pbe1") 1 in
  (Cart.total [item] == 11)%Q
  /\ (sumOfLines [item] == 10)%Q
  /\ ~ (Cart.total [item] == sumOfLines [item])%Q.
Proof.
cbv zeta. repeat split; try reflexivity.
intros H. vm_compute in H. discriminate H.
Qed.

(** C2, amended. For every list of lines given to the cart panel, the
    row "Subtotal" is the sum over the lines of unit price times
    quantity, the row "Tax" is a tenth of it and the row "Total" is the
    subtotal plus that tax, eleven tenths of the sum.  The three figures
    are computed from the lines of the current render alone. *)
Theorem cart_panel_figures (items : list CartItem.t) :
  (Cart.subtotal items == sumOfLines items)%Q
  /\ (Cart.tax items == sumOfLines items * (1 # 10))%Q
  /\ (Cart.total items == sumOfLines items + sumOfLines items * (1 # 10))%Q
  /\ (Cart.total items == sumOfLines items * (11 # 10))%Q.
Proof.
assert (Hsub : (Cart.subtotal items == sumOfLines items)%Q).
{ unfold Cart.subtotal. rewrite subtotal_from. ring. }
unfold Cart.total, Cart.tax. rewrite !Hsub.
repeat split; try reflexivity. ring.
Qed.

(** ** The item count of the header *)


(** ** Failed mutations *)

(** C3. Every cart mutation of [cartApi] rejects when the response is
    not ok or the request did not get through, so the failure reaches
    the mutation that called it.  Of the three cart mutations of the
    page only the add shows it: a failed add ends in the toast "Error"
    with the message, while a failed quantity update and a failed remove
    change nothing and show nothing, neither a toast nor a new read of
    the cart. *)
Theorem failed_update_and_remove_show_nothing
    (st : Index.State) (detail : option string) (message : string) :
  cartApi.addToCart (NotOk detail) = Rejected (js_or detail "Failed to add to cart")
  /\ cartApi.updateCartItem (NotOk detail) = Rejected (js_or detail "Failed to update cart")
  /\ cartApi.removeFromCart (NotOk detail)
     = Rejected (js_or detail "Failed to remove from cart")
  /\ cartApi.updateCartItem (FetchFailed message) = Rejected message
  /\ cartApi.removeFromCart (FetchFailed message) = Rejected message
  /\ Index.step st (Index.AddSettled (NotOk detail))
     = (st, [Index.Toast "Error" (Some (js_or detail "Failed to add to cart")) true])
  /\ Index.step st (Index.UpdateSettled (NotOk detail)) = (st, [])
  /\ Index.step st (Index.RemoveSettled (NotOk detail)) = (st, [])
  /\ Index.step st (Index.UpdateSettled (FetchFailed message)) = (st, [])
  /\ Index.step st (Index.RemoveSettled (FetchFailed message)) = (st, []).
Proof.
repeat split; reflexivity.
Qed.

(** ** Failed polls *)



(** ** Order placement *)

(** C8, as the claim states it, fails: with the session "s1", two units
    of one product in the cart view and the order accepted, the
    storefront sends the order with the session id, and on success asks
    for the cart again and shows a toast.  It sends no request that
    empties the cart of the session, and its view still holds the line. *)
Lemma checkout_sends_no_clear :
  let line := CartLineJson.mk "p1" "Watch" 10 "pbe1" None None None 2 in
  let customer := Customer.mk "Ada" "ada@example.org" None in
  let events :=
    [Index.SessionSettled (Ok (SessionResponse.mk "s1" [] 0));
     Index.CartSettled "s1" (Ok (CartResponse.mk [line] 20 2));
     Index.CheckoutClicked;
     Index.CheckoutSubmitted customer;
     Index.OrderSettled (Ok (MutationResult.mk None))] in
  let '(st, actions) := Index.run Index.initial events in
  ~ In (Index.Fetch (DeleteCart "s1")) actions
  /\ List.filter Index.isClearCart actions = []
  /\ actions
     = [Index.Fetch (GetSession None);
        Index.Fetch (GetCart "s1");
        Index.Fetch
          (PostOrder
             (OrderRequest.mk customer [OrderItem.mk "p1" 2 10 "pbe1"] (Some "Web"))
             (Some "s1"));
        Index.Fetch (GetCart "s1");
        Index.Toast "Order placed!" (Some "Your order has been placed successfully") false]
  /\ Index.cart st = [Index.toCartItem line].
Proof.
vm_compute. repeat split; try reflexivity.
intros H. repeat (destruct H as [H|H]; [discriminate H|]). exact H.
Qed.

Lemma invalidate_no_clear (st : Index.State) (key : string) :
  List.filter Index.isClearCart (Index.invalidateQueries st key) = [].
Proof. unfold Index.invalidateQueries. now split_cases. Qed.

Lemma add_no_clear (st : Index.State) (productId : string) (q : Z) :
  List.filter Index.isClearCart (Index.handleAddToCart st productId q) = [].
Proof. unfold Index.handleAddToCart. now split_cases. Qed.

Lemma commit_no_clear (old new : Index.State) :
  List.filter Index.isClearCart (snd (Index.commit old new)) = [].
Proof. unfold Index.commit. now split_cases. Qed.

Lemma step_no_clear (st : Index.State) (e : Index.Event) :
  List.filter Index.isClearCart (snd (Index.step st e)) = [].
Proof.
destruct e; cbn [Index.step];
  repeat match goal with
         | |- context [Index.commit ?a ?b] =>
             let H := fresh "H" in
             pose proof (commit_no_clear a b) as H;
             destruct (Index.commit a b); cbn [snd] in H
         | |- context [if ?b then _ else _] => destruct b
         | |- context [match ?x with _ => _ end] => destruct x
         end;
  cbn [snd];
  rewrite ?List.filter_app, ?invalidate_no_clear, ?add_no_clear;
  try reflexivity;
  try (cbn [List.filter Index.isClearCart];
       match goal with H : List.filter _ _ = [] |- _ => rewrite H end; reflexivity).
Qed.

(** C8, amended. After an order was placed with success the storefront
    does not empty the cart of the session itself.  The order request
    carried the session id, when there is one; on success the page invalidates the cart
    query, which reads the canonical cart again when the query is
    active, shows the toast "Order placed!" and closes the checkout
    dialog and the cart panel, leaving the fetched cart data as they
    are.  No event of the page sends the request that clears a cart.
    The core, for its part, hands out the cart of the session when an
    order is placed and clears nothing: the store and the cart that a
    read returns are the same after the placement as before. *)
Theorem checkout_success_rereads_the_cart
    (st : Index.State) (data : MutationResult.t) (customer : Customer.t)
    (e : Index.Event) (store : CartStore.Store) (sessionId : string) :
  snd (Index.step st (Index.OrderSettled (Ok data)))
  = Index.invalidateQueries st (Index.sessionId st)
    ++ [Index.Toast "Order placed!" (Some "Your order has been placed successfully") false]
  /\ Index.queryCache (fst (Index.step st (Index.OrderSettled (Ok data))))
     = Index.queryCache st
  /\ Index.isCartOpen (fst (Index.step st (Index.OrderSettled (Ok data))))
     = (if Index.mounted st then false else Index.isCartOpen st)
  /\ Index.checkoutDialogOpen (fst (Index.step st (Index.OrderSettled (Ok data))))
     = (if Index.mounted st then false else Index.checkoutDialogOpen st)
  /\ Index.handleCheckoutSubmit st customer
     = [Index.Fetch
          (PostOrder
             (OrderRequest.mk customer
                (map (fun item =>
                        OrderItem.mk
                          (CustomerProduct.id (CartItem.product item))
                          (CartItem.quantity item)
                          (CustomerProduct.price (CartItem.product item))
                          (CustomerProduct.pricebook_entry_id (CartItem.product item)))
                   (Index.cart st))
                (Some "Web"))
             (if truthy (Index.sessionId st) then Some (Index.sessionId st) else None))]
  /\ List.filter Index.isClearCart (snd (Index.step st e)) = []
  /\ fst (placeOrder store sessionId) = store
  /\ snd (placeOrder store sessionId) = CartStore.read store sessionId
  /\ CartStore.getCart (fst (placeOrder store sessionId)) sessionId
     = CartStore.getCart store sessionId.
Proof.
split; [reflexivity|].
split; [simpl; now destruct (Index.mounted st)|].
split; [simpl; now destruct (Index.mounted st)|].
split; [simpl; now destruct (Index.mounted st)|].
split; [reflexivity|].
split; [apply step_no_clear|].
repeat split.
Qed.

(** ** Suspension and teardown of the poller *)

Lemma closureCurrent_initial : closureCurrent Index.initial.
Proof. unfold closureCurrent. simpl. split; reflexivity. Qed.

Lemma commit_closure (old new : Index.State) :
  closureCurrent old ->
  Index.interval new = Index.interval old ->
  closureCurrent (fst (Index.commit old new)).
Proof.
intros Hold Hint. unfold Index.commit.
destruct (Index.depsChanged old new) eqn:Hdeps; cbn [fst].
- unfold closureCurrent. simpl. split; reflexivity.
- unfold Index.depsChanged in Hdeps.
  apply orb_false_elim in Hdeps as [Hsid Hadm].
  apply negb_false_iff in Hsid, Hadm.
  apply String.eqb_eq in Hsid. apply Bool.eqb_prop in Hadm.
  unfold closureCurrent in *. rewrite Hint.
  destruct (Index.interval old) as [[sid adm]|]; [|exact I].
  destruct Hold as [H1 H2]. split; congruence.
Qed.

Lemma step_closure (st : Index.State) (e : Index.Event) :
  closureCurrent st -> closureCurrent (fst (Index.step st e)).
Proof.
intros Hst.
destruct e; cbn [Index.step];
  repeat match goal with
         | |- context [Index.commit ?a ?b] =>
             let H := fresh "H" in
             pose proof (commit_closure a b Hst eq_refl) as H;
             destruct (Index.commit a b); cbn [fst] in H
         | |- context [if ?b then _ else _] => destruct b
         | |- context [match ?x with _ => _ end] => destruct x
         end;
  cbn [fst]; try assumption; try exact I.
Qed.

Lemma run_closure (events : list Index.Event) (st : Index.State) :
  closureCurrent st -> closureCurrent (fst (Index.run st events)).
Proof.
revert st. induction events as [|e rest IH]; intros st Hst; cbn [Index.run].
- exact Hst.
- pose proof (step_closure st e Hst) as Hstep.
  destruct (Index.step st e) as [st1 acts1]. cbn [fst] in Hstep.
  specialize (IH st1 Hstep).
  destruct (Index.run st1 rest) as [st2 acts2]. exact IH.
Qed.

Lemma enabled_admin (st : Index.State) :
  Index.isAdmin st = true -> Index.enabled st = false.
Proof.
intros H. unfold Index.enabled. rewrite H. apply andb_false_r.
Qed.

Lemma invalidate_disabled (st : Index.State) (key : string) :
  Index.mounted st && Index.enabled st = false ->
  Index.invalidateQueries st key = [].
Proof.
intros H. unfold Index.invalidateQueries. now rewrite H.
Qed.

Lemma add_no_read (st : Index.State) (productId : string) (q : Z) :
  List.filter Index.isCartRead (Index.handleAddToCart st productId q) = [].
Proof. unfold Index.handleAddToCart. now split_cases. Qed.

Lemma commit_admin_no_read (old new : Index.State) :
  Index.isAdmin new = true ->
  List.filter Index.isCartRead (snd (Index.commit old new)) = [].
Proof.
intros H. unfold Index.commit.
destruct (Index.depsChanged old new); cbn [snd]; [|reflexivity].
now rewrite (enabled_admin new H).
Qed.

Lemma admin_step_no_read (st : Index.State) (e : Index.Event) :
  closureCurrent st ->
  Index.isAdmin st = true ->
  Index.isAdmin (fst (Index.step st e)) = true ->
  List.filter Index.isCartRead (snd (Index.step st e)) = [].
Proof.
intros Hclosure Hadmin Hstay.
assert (Hoff : Index.mounted st && Index.enabled st = false).
{ rewrite (enabled_admin st Hadmin). apply andb_false_r. }
pose proof (invalidate_disabled st (Index.sessionId st) Hoff) as Hinv.
destruct e; cbn [Index.step] in *; rewrite ?Hoff, ?Hinv; try reflexivity.
- (* the interval *)
  unfold closureCurrent in Hclosure.
  destruct (Index.interval st) as [[sid adm]|]; [|reflexivity].
  destruct Hclosure as [_ ->]. rewrite Hadmin. cbn [snd negb].
  now rewrite andb_false_r.
- (* the session *)
  destruct (Index.mounted st); [|reflexivity].
  destruct (cartApi.getOrCreateSession r) as [session|]; [|reflexivity].
  apply commit_admin_no_read. exact Hadmin.
- (* a cart read *)
  destruct (cartApi.getCart r); reflexivity.
- destruct (cartApi.addToCart r); reflexivity.
- destruct (cartApi.updateCartItem r); reflexivity.
- destruct (cartApi.removeFromCart r); reflexivity.
- destruct (orderApi.createOrder r); reflexivity.
- destruct (Index.mounted st); cbn [snd]; [apply add_no_read|reflexivity].
- destruct (Index.mounted st); reflexivity.
- destruct (Index.selectedProduct st); reflexivity.
- destruct (Index.selectedProduct st); reflexivity.
- destruct (Index.selectedProduct st); reflexivity.
- destruct (Index.selectedProduct st); cbn [snd]; [apply add_no_read|reflexivity].
- destruct (if Index.mounted st then Index.cart st !! i else None); reflexivity.
- destruct (if Index.mounted st then Index.cart st !! i else None); reflexivity.
- destruct (if Index.mounted st then Index.cart st !! i else None); reflexivity.
- destruct (Index.mounted st); reflexivity.
- (* the admin login *)
  destruct (Index.mounted st); [|reflexivity].
  pose proof (commit_admin_no_read st (Index.setIsAdmin true st) eq_refl) as H.
  destruct (Index.commit st (Index.setIsAdmin true st)) as [st' acts].
  cbn [snd] in *. cbn [List.filter Index.isCartRead]. exact H.
- (* the mode toggle leaves the admin view *)
  destruct (Index.mounted st); [|reflexivity].
  rewrite Hadmin in *.
  unfold Index.commit in *.
  destruct (Index.depsChanged st (Index.setIsAdmin false st)) eqn:Hdeps;
    cbn [fst snd] in *; simpl in Hstay; [discriminate Hstay|].
  reflexivity.
Qed.

Lemma tornDown_step (st : Index.State) (e : Index.Event) :
  tornDown st ->
  tornDown (fst (Index.step st e))
  /\ List.filter Index.isCartRead (snd (Index.step st e)) = [].
Proof.
intros [Hm Hi].
assert (Hinv : forall key, Index.invalidateQueries st key = []).
{ intros key. apply invalidate_disabled. now rewrite Hm. }
destruct e; cbn [Index.step]; rewrite ?Hm, ?Hi, ?Hinv; cbn [fst snd];
  try (split; [split; assumption|reflexivity]).
- destruct (cartApi.getCart r); cbn [fst snd]; (split; [split; assumption|reflexivity]).
- destruct (cartApi.addToCart r); cbn [fst snd]; (split; [split; assumption|reflexivity]).
- destruct (cartApi.updateCartItem r); cbn [fst snd]; (split; [split; assumption|reflexivity]).
- destruct (cartApi.removeFromCart r); cbn [fst snd]; (split; [split; assumption|reflexivity]).
- destruct (orderApi.createOrder r); cbn [fst snd]; (split; [split; assumption|reflexivity]).
- destruct (Index.selectedProduct st); cbn [fst snd]; (split; [split; assumption|reflexivity]).
- destruct (Index.selectedProduct st); cbn [fst snd]; (split; [split; assumption|reflexivity]).
- destruct (Index.selectedProduct st); cbn [fst snd]; (split; [split; assumption|reflexivity]).
- destruct (Index.selectedProduct st); cbn [fst snd];
    (split; [split; assumption|try reflexivity]). apply add_no_read.
- split; [split; reflexivity|reflexivity].
Qed.

Lemma tornDown_run (events : list Index.Event) (st : Index.State) :
  tornDown st ->
  List.filter Index.isCartRead (snd (Index.run st events)) = [].
Proof.
revert st. induction events as [|e rest IH]; intros st Hst; cbn [Index.run].
- reflexivity.
- destruct (tornDown_step st e Hst) as [Hnext Hquiet].
  destruct (Index.step st e) as [st1 acts1]. cbn [fst snd] in *.
  specialize (IH st1 Hnext).
  destruct (Index.run st1 rest) as [st2 acts2]. cbn [snd] in *.
  now rewrite List.filter_app, Hquiet, IH.
Qed.

(** C7. In every state the page reaches from its mount, a step taken
    while the admin view is active, before the step and after it, sends
    no read of the cart, whichever event it answers: the tick of the
    interval, the tick of the refetch timer, a settled request or a
    click.  The teardown clears the interval, and from the state it
    leaves no sequence of events sends a read of the cart. *)
Theorem admin_view_and_teardown_stop_the_poller
    (before after : list Index.Event) (e : Index.Event) :
  let st := fst (Index.run Index.initial before) in
  let gone := fst (Index.step st Index.Unmounted) in
  (Index.isAdmin st = true ->
   Index.isAdmin (fst (Index.step st e)) = true ->
   List.filter Index.isCartRead (snd (Index.step st e)) = [])
  /\ Index.interval gone = None
  /\ Index.mounted gone = false
  /\ snd (Index.step st Index.Unmounted) = []
  /\ List.filter Index.isCartRead (snd (Index.run gone after)) = [].
Proof.
intros st gone.
split.
- apply admin_step_no_read. apply run_closure, closureCurrent_initial.
- repeat split. apply tornDown_run. split; reflexivity.
Qed.

(** A run in which C7 applies: the session is known, the admin logs in,
    and the interval ticks in the admin view; later the page is torn
    down and both timers tick once more. *)
Lemma admin_view_and_teardown_witness :
  let before :=
    [Index.SessionSettled (Ok (SessionResponse.mk "s1" [] 0));
     Index.AdminLoggedIn "admin@example.org"] in
  let st := fst (Index.run Index.initial before) in
  Index.isAdmin st = true
  /\ List.filter Index.isCartRead (snd (Index.step st Index.IntervalFired)) = []
  /\ List.filter Index.isCartRead
       (snd (Index.run (fst (Index.step st Index.Unmounted))
               [Index.IntervalFired; Index.RefetchIntervalFired]))
     = [].
Proof.
intros before st.
destruct (admin_view_and_teardown_stop_the_poller before
            [Index.IntervalFired; Index.RefetchIntervalFired] Index.IntervalFired)
  as [Hadmin [_ [_ [_ Hgone]]]].
split; [reflexivity|].
split; [apply Hadmin; reflexivity|exact Hgone].
Defined.


(** ** The quantities the storefront asks for *)

Lemma requests_app (xs ys : list Index.Action) :
  requestsAtLeastOne xs -> requestsAtLeastOne ys -> requestsAtLeastOne (xs ++ ys).
Proof. unfold requestsAtLeastOne. intros Hx Hy. apply Forall_app. now split. Qed.

Lemma requests_toast (title : string) (description : option string) (d : bool) :
  requestsAtLeastOne [Index.Toast title description d].
Proof. repeat constructor. intros q Hq. discriminate Hq. Qed.

Lemma requests_invalidate (st : Index.State) (key : string) :
  requestsAtLeastOne (Index.invalidateQueries st key).
Proof.
unfold Index.invalidateQueries.
destruct (Index.mounted st && Index.enabled st && String.eqb key (Index.sessionId st));
  repeat constructor.
intros q Hq. discriminate Hq.
Qed.

Lemma requests_add (st : Index.State) (productId : string) (q : Z) :
  1 <= q -> requestsAtLeastOne (Index.handleAddToCart st productId q).
Proof.
intros Hq. unfold Index.handleAddToCart.
destruct (match Index.productsData st with
          | Some items => find (fun p => String.eqb (CustomerProduct.id p) productId) items
          | None => None
          end) as [product|].
- repeat constructor. intros q' Hq'. simpl in Hq'. congruence.
- apply requests_toast.
Qed.

Lemma requests_update (st : Index.State) (productId : string) (q : Z) :
  1 <= q -> requestsAtLeastOne (Index.handleUpdateQuantity st productId q).
Proof.
intros Hq. repeat constructor. intros q' Hq'. simpl in Hq'. congruence.
Qed.

Lemma requests_commit (old new : Index.State) :
  requestsAtLeastOne (snd (Index.commit old new)).
Proof.
unfold Index.commit.
destruct (Index.depsChanged old new); cbn [snd]; [|constructor].
destruct (Index.enabled new); repeat constructor; intros q Hq; discriminate Hq.
Qed.

Lemma quantities_commit (old new : Index.State) :
  quantitiesOk new -> quantitiesOk (fst (Index.commit old new)).
Proof.
intros H. unfold Index.commit.
destruct (Index.depsChanged old new); exact H.
Qed.

Lemma view_item_positive (st : Index.State) (i : nat) (item : CartItem.t) :
  quantitiesOk st ->
  Index.cart st !! i = Some item ->
  1 <= CartItem.quantity item.
Proof.
intros [_ Hcache] Hitem. unfold Index.cart, Index.cartData in Hitem.
destruct (Index.queryCache st !! Index.sessionId st) as [data|] eqn:Hdata.
- apply (map_Forall_lookup_1 _ _ _ _ Hcache) in Hdata.
  rewrite list_lookup_fmap in Hitem.
  destruct (CartResponse.cart data !! i) as [line|] eqn:Hline; [|discriminate Hitem].
  injection Hitem as <-. simpl.
  unfold quantitiesPositive in Hdata. rewrite List.Forall_forall in Hdata.
  apply Hdata. apply list_elem_of_In. eapply list_elem_of_lookup_2. exact Hline.
- rewrite lookup_nil in Hitem. discriminate Hitem.
Qed.

Lemma modal_quantity_positive (q : Z) (parsed : option Z) :
  1 <= ProductDetailModal.initialQuantity
  /\ 1 <= ProductDetailModal.minus q
  /\ (1 <= q -> 1 <= ProductDetailModal.plus q)
  /\ 1 <= ProductDetailModal.change parsed.
Proof.
unfold ProductDetailModal.initialQuantity, ProductDetailModal.minus,
  ProductDetailModal.plus, ProductDetailModal.change.
repeat split; lia.
Qed.

Lemma quantitiesOk_initial : quantitiesOk Index.initial.
Proof.
split; [simpl; unfold ProductDetailModal.initialQuantity; lia|].
simpl. apply map_Forall_empty.
Qed.

Lemma step_quantities (st : Index.State) (e : Index.Event) :
  quantitiesOk st ->
  canonicalEvent e ->
  quantitiesOk (fst (Index.step st e)) /\ requestsAtLeastOne (snd (Index.step st e)).
Proof.
intros Hst He.
pose proof Hst as [Hmodal Hcache].
pose proof (modal_quantity_positive (Index.modalQuantity st) None)
  as [Hinit [Hminus [Hplus _]]].
destruct e; cbn [Index.step].
- (* IntervalFired *)
  destruct (Index.interval st) as [[sid adm]|]; cbn [fst snd]; split; try exact Hst;
    try constructor.
  destruct (truthy sid && negb adm); [apply requests_invalidate|constructor].
- (* RefetchIntervalFired *)
  split; [exact Hst|].
  destruct (Index.mounted st && Index.enabled st); repeat constructor.
  intros q H. discriminate H.
- (* SessionSettled *)
  destruct (Index.mounted st); [|split; [exact Hst|constructor]].
  destruct (cartApi.getOrCreateSession r) as [session|]; [|split; [exact Hst|constructor]].
  split; [apply quantities_commit; exact Hst|apply requests_commit].
- (* ProductsSettled *)
  split; [|constructor]. destruct (Index.mounted st); exact Hst.
- (* CartSettled *)
  destruct r as [data|detail|message|text]; cbn [cartApi.getCart fst snd].
  + split; [|constructor]. split; [exact Hmodal|].
    simpl. apply map_Forall_insert_2; [exact He|exact Hcache].
  + split; [exact Hst|constructor].
  + split; [exact Hst|constructor].
  + split; [exact Hst|constructor].
- (* AddSettled *)
  destruct (cartApi.addToCart r); cbn [fst snd]; split; try exact Hst.
  + apply requests_app; [apply requests_invalidate|apply requests_toast].
  + apply requests_toast.
- (* UpdateSettled *)
  destruct (cartApi.updateCartItem r); cbn [fst snd]; split; try exact Hst.
  + apply requests_invalidate.
  + constructor.
- (* RemoveSettled *)
  destruct (cartApi.removeFromCart r); cbn [fst snd]; split; try exact Hst.
  + apply requests_app; [apply requests_invalidate|apply requests_toast].
  + constructor.
- (* OrderSettled *)
  destruct (orderApi.createOrder r); cbn [fst snd]; split; try exact Hst.
  + destruct (Index.mounted st); exact Hst.
  + apply requests_app; [apply requests_invalidate|apply requests_toast].
  + apply requests_toast.
- (* CardAddClicked *)
  split; [exact Hst|].
  destruct (Index.mounted st); [apply requests_add; lia|constructor].
- (* CardClicked *)
  destruct (Index.mounted st); [|split; [exact Hst|constructor]].
  split; [|constructor].
  destruct (Index.selectedProduct st); [exact Hst|].
  split; [exact Hinit|exact Hcache].
- (* ModalMinusClicked *)
  destruct (Index.selectedProduct st); cbn [fst snd]; split; try exact Hst;
    try constructor.
  + exact Hminus.
  + exact Hcache.
- (* ModalPlusClicked *)
  destruct (Index.selectedProduct st); cbn [fst snd]; split; try exact Hst;
    try constructor.
  + exact (Hplus Hmodal).
  + exact Hcache.
- (* ModalChanged *)
  destruct (Index.selectedProduct st); cbn [fst snd]; split; try exact Hst;
    try constructor.
  + apply (modal_quantity_positive 1 parsed).
  + exact Hcache.
- (* ModalAddClicked *)
  destruct (Index.selectedProduct st); cbn [fst snd]; (split; [exact Hst|]);
    [|constructor].
  apply requests_add. exact Hmodal.
- (* ModalCloseClicked *)
  split; [exact Hst|constructor].
- (* CartClicked *)
  split; [|constructor]. destruct (Index.mounted st); exact Hst.
- (* CartClosed *)
  split; [|constructor]. destruct (Index.mounted st); exact Hst.
- (* CartMinusClicked *)
  destruct (Index.mounted st); [|split; [exact Hst|constructor]].
  destruct (Index.cart st !! i) as [item|]; cbn [Cart.minusClick fst snd];
    (split; [exact Hst|]); [|constructor].
  apply requests_update. lia.
- (* CartPlusClicked *)
  destruct (Index.mounted st); [|split; [exact Hst|constructor]].
  destruct (Index.cart st !! i) as [item|] eqn:Hitem; cbn [Cart.plusClick fst snd];
    (split; [exact Hst|]); [|constructor].
  apply requests_update.
  pose proof (view_item_positive st i item Hst Hitem). lia.
- (* CartRemoveClicked *)
  destruct (if Index.mounted st then Index.cart st !! i else None);
    cbn [fst snd]; split; try exact Hst; repeat constructor.
  intros q H. discriminate H.
- (* CheckoutClicked *)
  split; [|constructor]. destruct (Index.mounted st); exact Hst.
- (* CheckoutSubmitted *)
  split; [exact Hst|].
  destruct (Index.mounted st); repeat constructor.
  intros q H. discriminate H.
- (* AdminLoggedIn *)
  destruct (Index.mounted st); [|split; [exact Hst|constructor]].
  pose proof (quantities_commit st (Index.setIsAdmin true st) Hst) as H1.
  pose proof (requests_commit st (Index.setIsAdmin true st)) as H2.
  destruct (Index.commit st (Index.setIsAdmin true st)) as [st' acts].
  cbn [fst snd] in *. split; [exact H1|].
  apply (requests_app [_]); [apply requests_toast|exact H2].
- (* ModeToggled *)
  destruct (Index.mounted st); [|split; [exact Hst|constructor]].
  destruct (Index.isAdmin st); [|split; [exact Hst|constructor]].
  pose proof (quantities_commit st (Index.setIsAdmin false st) Hst) as H1.
  pose proof (requests_commit st (Index.setIsAdmin false st)) as H2.
  destruct (Index.commit st (Index.setIsAdmin false st)) as [st' acts].
  cbn [fst snd] in *. split; [exact H1|].
  apply (requests_app [_]); [apply requests_toast|exact H2].
- (* Unmounted *)
  split; [exact Hst|constructor].
Qed.

Lemma run_quantities (events : list Index.Event) (st : Index.State) :
  quantitiesOk st ->
  Forall canonicalEvent events ->
  quantitiesOk (fst (Index.run st events))
  /\ requestsAtLeastOne (snd (Index.run st events)).
Proof.
revert st. induction events as [|e rest IH]; intros st Hst Hevents; cbn [Index.run].
- split; [exact Hst|constructor].
- apply Forall_cons in Hevents as [He Hrest].
  destruct (step_quantities st e Hst He) as [Hnext Hacts].
  destruct (Index.step st e) as [st1 acts1]. cbn [fst snd] in *.
  destruct (IH st1 Hnext Hrest) as [Hfinal Hlater].
  destruct (Index.run st1 rest) as [st2 acts2]. cbn [fst snd] in *.
  split; [exact Hfinal|now apply requests_app].
Qed.

Lemma modal_commit (old new : Index.State) :
  Index.modalQuantity (fst (Index.commit old new)) = Index.modalQuantity new.
Proof. unfold Index.commit. now destruct (Index.depsChanged old new). Qed.

Lemma cache_commit (old new : Index.State) :
  Index.queryCache (fst (Index.commit old new)) = Index.queryCache new.
Proof. unfold Index.commit. now destruct (Index.depsChanged old new). Qed.

Lemma view_item_not_negative (st : Index.State) (i : nat) (item : CartItem.t) :
  cacheNotNegative st ->
  Index.cart st !! i = Some item ->
  0 <= CartItem.quantity item.
Proof.
intros Hcache Hitem. unfold Index.cart, Index.cartData in Hitem.
destruct (Index.queryCache st !! Index.sessionId st) as [data|] eqn:Hdata.
- apply (map_Forall_lookup_1 _ _ _ _ Hcache) in Hdata.
  rewrite list_lookup_fmap in Hitem.
  destruct (CartResponse.cart data !! i) as [line|] eqn:Hline; [|discriminate Hitem].
  injection Hitem as <-. simpl.
  unfold quantitiesNotNegative in Hdata. rewrite List.Forall_forall in Hdata.
  apply Hdata. apply list_elem_of_In. eapply list_elem_of_lookup_2. exact Hline.
- rewrite lookup_nil in Hitem. discriminate Hitem.
Qed.

Lemma step_modal (st : Index.State) (e : Index.Event) :
  1 <= Index.modalQuantity st -> 1 <= Index.modalQuantity (fst (Index.step st e)).
Proof.
intros Hmodal.
destruct e; cbn [Index.step];
  repeat match goal with
         | |- context [Index.commit ?a ?b] =>
             let H := fresh "H" in
             pose proof (modal_commit a b) as H;
             destruct (Index.commit a b); cbn [fst] in H
         | |- context [if ?b then _ else _] => destruct b
         | |- context [match ?x with _ => _ end] => destruct x
         end;
  cbn [fst];
  try match goal with H : Index.modalQuantity _ = _ |- _ => rewrite H end;
  cbn [Index.modalQuantity Index.setIsAdmin Index.setSessionId Index.setIsCartOpen
       Index.setCheckoutDialogOpen Index.setSelectedProduct Index.setQuantity
       Index.set_productsData Index.set_queryCache Index.set_interval Index.set_mounted];
  unfold ProductDetailModal.initialQuantity, ProductDetailModal.minus,
    ProductDetailModal.plus, ProductDetailModal.change;
  lia.
Qed.

Lemma step_cache_not_negative (st : Index.State) (e : Index.Event) :
  cacheNotNegative st ->
  fetchesNotNegative e ->
  cacheNotNegative (fst (Index.step st e)).
Proof.
intros Hcache He. unfold cacheNotNegative in *.
destruct e;
  try match goal with r : Response CartResponse.t |- _ => destruct r end;
  cbn [Index.step cartApi.getCart];
  repeat match goal with
         | |- context [Index.commit ?a ?b] =>
             let H := fresh "H" in
             pose proof (cache_commit a b) as H;
             destruct (Index.commit a b); cbn [fst] in H
         | |- context [if ?b then _ else _] => destruct b
         | |- context [match ?x with _ => _ end] => destruct x
         end;
  cbn [fst];
  try match goal with H : Index.queryCache _ = _ |- _ => rewrite H end;
  try exact Hcache.
all: cbn [Index.queryCache Index.set_queryCache];
  apply map_Forall_insert_2; [exact He|exact Hcache].
Qed.

Lemma step_requests (st : Index.State) (e : Index.Event) :
  1 <= Index.modalQuantity st ->
  (forall i item,
     e = Index.CartPlusClicked i ->
     Index.cart st !! i = Some item ->
     0 <= CartItem.quantity item) ->
  requestsAtLeastOne (snd (Index.step st e)).
Proof.
intros Hmodal Hline.
destruct e; cbn [Index.step].
- (* IntervalFired *)
  destruct (Index.interval st) as [[sid adm]|]; cbn [snd]; [|constructor].
  destruct (truthy sid && negb adm); [apply requests_invalidate|constructor].
- (* RefetchIntervalFired *)
  destruct (Index.mounted st && Index.enabled st); repeat constructor.
  intros q H. discriminate H.
- (* SessionSettled *)
  destruct (Index.mounted st); [|constructor].
  destruct (cartApi.getOrCreateSession r); [apply requests_commit|constructor].
- (* ProductsSettled *)
  constructor.
- (* CartSettled *)
  destruct (cartApi.getCart r); constructor.
- (* AddSettled *)
  destruct (cartApi.addToCart r); cbn [snd].
  + apply requests_app; [apply requests_invalidate|apply requests_toast].
  + apply requests_toast.
- (* UpdateSettled *)
  destruct (cartApi.updateCartItem r); cbn [snd];
    [apply requests_invalidate|constructor].
- (* RemoveSettled *)
  destruct (cartApi.removeFromCart r); cbn [snd]; [|constructor].
  apply requests_app; [apply requests_invalidate|apply requests_toast].
- (* OrderSettled *)
  destruct (orderApi.createOrder r); cbn [snd]; [|apply requests_toast].
  apply requests_app; [apply requests_invalidate|apply requests_toast].
- (* CardAddClicked *)
  cbn [snd]. destruct (Index.mounted st); [apply requests_add; lia|constructor].
- (* CardClicked *)
  destruct (Index.mounted st); constructor.
- (* ModalMinusClicked *)
  destruct (Index.selectedProduct st); constructor.
- (* ModalPlusClicked *)
  destruct (Index.selectedProduct st); constructor.
- (* ModalChanged *)
  destruct (Index.selectedProduct st); constructor.
- (* ModalAddClicked *)
  destruct (Index.selectedProduct st); cbn [snd]; [|constructor].
  apply requests_add. exact Hmodal.
- (* ModalCloseClicked *)
  constructor.
- (* CartClicked *)
  constructor.
- (* CartClosed *)
  constructor.
- (* CartMinusClicked *)
  destruct (Index.mounted st); [|constructor].
  destruct (Index.cart st !! i) as [item|]; cbn [Cart.minusClick snd]; [|constructor].
  apply requests_update. lia.
- (* CartPlusClicked *)
  destruct (Index.mounted st); [|constructor].
  destruct (Index.cart st !! i) as [item|] eqn:Hitem; cbn [Cart.plusClick snd];
    [|constructor].
  apply requests_update.
  pose proof (Hline i item eq_refl Hitem). lia.
- (* CartRemoveClicked *)
  destruct (if Index.mounted st then Index.cart st !! i else None);
    cbn [snd]; repeat constructor.
  intros q H. discriminate H.
- (* CheckoutClicked *)
  constructor.
- (* CheckoutSubmitted *)
  cbn [snd]. destruct (Index.mounted st); repeat constructor.
  intros q H. discriminate H.
- (* AdminLoggedIn *)
  destruct (Index.mounted st); [|constructor].
  pose proof (requests_commit st (Index.setIsAdmin true st)) as H.
  destruct (Index.commit st (Index.setIsAdmin true st)) as [st' acts].
  cbn [snd] in *. apply (requests_app [_]); [apply requests_toast|exact H].
- (* ModeToggled *)
  destruct (Index.mounted st); [|constructor].
  destruct (Index.isAdmin st); [|constructor].
  pose proof (requests_commit st (Index.setIsAdmin false st)) as H.
  destruct (Index.commit st (Index.setIsAdmin false st)) as [st' acts].
  cbn [snd] in *. apply (requests_app [_]); [apply requests_toast|exact H].
- (* Unmounted *)
  constructor.
Qed.

Lemma run_modal (events : list Index.Event) (st : Index.State) :
  1 <= Index.modalQuantity st ->
  1 <= Index.modalQuantity (fst (Index.run st events)).
Proof.
revert st. induction events as [|e rest IH]; intros st Hst; cbn [Index.run].
- exact Hst.
- pose proof (step_modal st e Hst) as Hnext.
  destruct (Index.step st e) as [st1 acts1]. cbn [fst] in Hnext.
  specialize (IH st1 Hnext).
  destruct (Index.run st1 rest) as [st2 acts2]. exact IH.
Qed.

Lemma run_requests (events : list Index.Event) (st : Index.State) :
  1 <= Index.modalQuantity st ->
  cacheNotNegative st ->
  Forall fetchesNotNegative events ->
  requestsAtLeastOne (snd (Index.run st events)).
Proof.
revert st. induction events as [|e rest IH]; intros st Hst Hcache Hevents;
  cbn [Index.run].
- constructor.
- apply Forall_cons in Hevents as [He Hrest].
  pose proof (step_modal st e Hst) as Hnext.
  pose proof (step_cache_not_negative st e Hcache He) as Hkept.
  assert (Hacts : requestsAtLeastOne (snd (Index.step st e))).
  { apply step_requests; [exact Hst|].
    intros i item _ Hitem. exact (view_item_not_negative st i item Hcache Hitem). }
  destruct (Index.step st e) as [st1 acts1]. cbn [fst snd] in *.
  specialize (IH st1 Hnext Hkept Hrest).
  destruct (Index.run st1 rest) as [st2 acts2]. cbn [snd] in *.
  now apply requests_app.
Qed.

Lemma run_requests_without_plus (events : list Index.Event) (st : Index.State) :
  1 <= Index.modalQuantity st ->
  forallb (fun e => negb (isPlusClick e)) events = true ->
  requestsAtLeastOne (snd (Index.run st events)).
Proof.
revert st. induction events as [|e rest IH]; intros st Hst Hevents; cbn [Index.run].
- constructor.
- cbn [forallb] in Hevents. apply andb_true_iff in Hevents as [He Hrest].
  pose proof (step_modal st e Hst) as Hnext.
  assert (Hacts : requestsAtLeastOne (snd (Index.step st e))).
  { apply step_requests; [exact Hst|].
    intros i item -> _. discriminate He. }
  destruct (Index.step st e) as [st1 acts1]. cbn [fst snd] in *.
  specialize (IH st1 Hnext Hrest).
  destruct (Index.run st1 rest) as [st2 acts2]. cbn [snd] in *.
  now apply requests_app.
Qed.

Lemma run_no_clear (events : list Index.Event) (st : Index.State) :
  List.filter Index.isClearCart (snd (Index.run st events)) = [].
Proof.
revert st. induction events as [|e rest IH]; intros st; cbn [Index.run]; [reflexivity|].
pose proof (step_no_clear st e) as Hstep.
destruct (Index.step st e) as [st1 acts1]. cbn [snd] in Hstep.
specialize (IH st1).
destruct (Index.run st1 rest) as [st2 acts2]. cbn [snd] in *.
rewrite List.filter_app, Hstep, IH. reflexivity.
Qed.

(** C10, as the claim states it, fails: the plus button of a line sends
    the quantity of the line plus one without a clamp, so on a fetched
    line of quantity -3 a click on it asks the store for -2. *)
Lemma plus_on_a_negative_line_asks_for_less_than_one :
  let line := CartLineJson.mk "p1" "Watch" 10 "pbe1" None None None (-3) in
  let events :=
    [Index.SessionSettled (Ok (SessionResponse.mk "s1" [] 0));
     Index.CartSettled "s1" (Ok (CartResponse.mk [line] (-30) (-3)));
     Index.CartPlusClicked 0] in
  snd (Index.run Index.initial events)
  = [Index.Fetch (GetSession None);
     Index.Fetch (GetCart "s1");
     Index.Fetch (PutCartItem "s1" "p1" (-2))]
  /\ ~ requestsAtLeastOne (snd (Index.run Index.initial events)).
Proof.
intros line events. split; [reflexivity|].
intros H. unfold requestsAtLeastOne in H. rewrite List.Forall_forall in H.
specialize (H (Index.Fetch (PutCartItem "s1" "p1" (-2)))
              ltac:(vm_compute; tauto) (-2) eq_refl).
lia.
Qed.

(** C10, amended. The minus button of a line of the cart panel asks for
    the larger of 1 and the quantity less one, the modal keeps its
    quantity at 1 or more, through its minus button, its plus button and
    its input, and the card asks for 1: all that whatever the data.  The
    plus button of a line asks for one more than the quantity of the
    line, without a clamp.  So in every run of the page from its mount in
    which no fetched line has a negative quantity, and in every run
    without a click on the plus button of a line, every request that adds
    to the cart or sets a quantity asks for at least 1.  A line leaves
    the cart through the remove button, whose request carries no
    quantity, and the page never asks for the cart to be emptied. *)
Theorem quantity_controls_ask_for_at_least_one
    (events : list Index.Event) (st : Index.State) (i : nat) (item : CartItem.t)
    (q : Z) (parsed : option Z) (productId : string) :
  (Forall fetchesNotNegative events ->
   requestsAtLeastOne (snd (Index.run Index.initial events)))
  /\ (forallb (fun e => negb (isPlusClick e)) events = true ->
      requestsAtLeastOne (snd (Index.run Index.initial events)))
  /\ 1 <= Index.modalQuantity (fst (Index.run Index.initial events))
  /\ List.filter Index.isClearCart (snd (Index.run Index.initial events)) = []
  /\ (Index.mounted st = true ->
      Index.cart st !! i = Some item ->
      safeInteger (CartItem.quantity item) ->
      Index.step st (Index.CartMinusClicked i)
      = (st, [Index.Fetch
                (PutCartItem (Index.sessionId st)
                   (CustomerProduct.id (CartItem.product item))
                   (Z.max 1 (CartItem.quantity item - 1)))])
      /\ (CartItem.quantity item < maxSafeInteger ->
          Index.step st (Index.CartPlusClicked i)
          = (st, [Index.Fetch
                    (PutCartItem (Index.sessionId st)
                       (CustomerProduct.id (CartItem.product item))
                       (CartItem.quantity item + 1))]))
      /\ Index.step st (Index.CartRemoveClicked i)
         = (st, [Index.Fetch
                   (DeleteCartItem (Index.sessionId st)
                      (CustomerProduct.id (CartItem.product item)))]))
  /\ (safeInteger q ->
      ProductDetailModal.minus q = Z.max 1 (q - 1)
      /\ 1 <= ProductDetailModal.minus q
      /\ (1 <= q -> 1 <= ProductDetailModal.plus q))
  /\ 1 <= ProductDetailModal.change parsed
  /\ (forall n, 1 <= n -> ProductDetailModal.change (Some n) = n)
  /\ (forall product,
        Index.selectedProduct st = Some product ->
        safeInteger (Index.modalQuantity st) ->
        Index.step st Index.ModalMinusClicked
        = (Index.setQuantity (Z.max 1 (Index.modalQuantity st - 1)) st, [])
        /\ Index.step st (Index.ModalChanged parsed)
           = (Index.setQuantity (ProductDetailModal.change parsed) st, [])
        /\ Index.step st Index.ModalAddClicked
           = (Index.setSelectedProduct None st,
              Index.handleAddToCart st (CustomerProduct.id product) (Index.modalQuantity st)))
  /\ Index.step st (Index.CardAddClicked productId)
     = (st, if Index.mounted st then Index.handleAddToCart st productId 1 else []).
Proof.
assert (Hinit : 1 <= Index.modalQuantity Index.initial).
{ simpl. unfold ProductDetailModal.initialQuantity. lia. }
split.
{ intros Hevents. apply run_requests; [exact Hinit| |exact Hevents].
  unfold cacheNotNegative. simpl. apply map_Forall_empty. }
split; [intros Hevents; now apply run_requests_without_plus|].
split; [now apply run_modal|].
split; [apply run_no_clear|].
split.
{ intros Hm Hitem _. cbn [Index.step]. rewrite Hm, Hitem.
  repeat split; reflexivity. }
split.
{ intros _. unfold ProductDetailModal.minus, ProductDetailModal.plus.
  repeat split; lia. }
split; [unfold ProductDetailModal.change; lia|].
split.
{ intros n Hn. unfold ProductDetailModal.change, js_or_num.
  destruct (Z.eqb_spec n 0); lia. }
split.
{ intros product Hp _. cbn [Index.step]. rewrite Hp. repeat split; reflexivity. }
reflexivity.
Qed.

(** A run in which C10 applies: the cart holds one unit of a product;
    the user clicks minus and plus on its line, opens the product, types
    -5 in the quantity field, clicks minus and adds to the cart. *)
Lemma quantity_controls_witness :
  let product := CustomerProduct.mk "p1" "Watch" 10 "" "" "" "" "" "" "pbe1" in
  let line := CartLineJson.mk "p1" "Watch" 10 "pbe1" None None None 1 in
  let events :=
    [Index.SessionSettled (Ok (SessionResponse.mk "s1" [] 0));
     Index.ProductsSettled [product];
     Index.CartSettled "s1" (Ok (CartResponse.mk [line] 10 1));
     Index.CartMinusClicked 0;
     Index.CartPlusClicked 0;
     Index.CardClicked product;
     Index.ModalChanged (Some (-5));
     Index.ModalMinusClicked;
     Index.ModalAddClicked] in
  let st := fst (Index.run Index.initial [Index.SessionSettled (Ok (SessionResponse.mk "s1" [] 0));
     Index.CartSettled "s1" (Ok (CartResponse.mk [line] 10 1))]) in
  Forall fetchesNotNegative events
  /\ requestsAtLeastOne (snd (Index.run Index.initial events))
  /\ List.filter (fun a => bool_decide (is_Some (Index.requestedQuantity a)))
       (snd (Index.run Index.initial events))
     = [Index.Fetch (PutCartItem "s1" "p1" 1);
        Index.Fetch (PutCartItem "s1" "p1" 2);
        Index.Fetch
          (PostCartAdd "s1"
             (CartItemAdd.mk "p1" 1 "pbe1" 10 "Watch" (Some "") (Some "") (Some "")))]
  /\ Index.step st (Index.CartMinusClicked 0)
     = (st, [Index.Fetch (PutCartItem "s1" "p1" 1)])
  /\ ProductDetailModal.minus 1 = 1
  /\ requestsAtLeastOne
       (snd (Index.run Index.initial
               [Index.CartSettled "" (Ok (CartResponse.mk [line] 10 1));
                Index.CartMinusClicked 0])).
Proof.
intros product line events st.
assert (Hevents : Forall fetchesNotNegative events).
{ repeat first [exact I | apply Forall_nil | apply Forall_cons; [simpl|]].
  repeat constructor. simpl. lia. }
destruct (quantity_controls_ask_for_at_least_one events st 0 (Index.toCartItem line)
            1 None "p1")
  as [Hrun [_ [_ [_ [Hclicks [Hmodal _]]]]]].
assert (Hsafe : safeInteger 1) by (unfold safeInteger, maxSafeInteger; lia).
split; [exact Hevents|].
split; [exact (Hrun Hevents)|].
split; [reflexivity|].
split; [exact (proj1 (Hclicks eq_refl eq_refl Hsafe))|].
split; [exact (eq_trans (proj1 (Hmodal Hsafe)) eq_refl)|].
exact (proj1 (proj2 (quantity_controls_ask_for_at_least_one
                       [Index.CartSettled "" (Ok (CartResponse.mk [line] 10 1));
                        Index.CartMinusClicked 0]
                       st 0 (Index.toCartItem line) 1 None "p1")) eq_refl).
Defined.

(** ** Adding to the canonical cart *)

Lemma hasId_true (productId : string) (l : CartLine.t) :
  CartStore.hasId productId l = true <-> CartLine.product_id l = productId.
Proof. unfold CartStore.hasId. apply String.eqb_eq. Qed.

Lemma hasId_false (productId : string) (l : CartLine.t) :
  CartStore.hasId productId l = false <-> CartLine.product_id l <> productId.
Proof. unfold CartStore.hasId. apply String.eqb_neq. Qed.

Lemma addLine_ids (lines : list CartLine.t) (item : CartItemAdd.t) (x : string) :
  In x (map CartLine.product_id (CartStore.addLine lines item)) ->
  In x (map CartLine.product_id lines) \/ x = CartItemAdd.product_id item.
Proof.
induction lines as [|l rest IH]; simpl.
- intros [H|[]]. right. now symmetry.
- destruct (CartStore.hasId (CartItemAdd.product_id item) l); simpl.
  + intros H. left. exact H.
  + intros [H|H]; [left; left; exact H|].
    destruct (IH H) as [H'|H']; [left; right; exact H'|right; exact H'].
Qed.

Lemma addLine_NoDup (lines : list CartLine.t) (item : CartItemAdd.t) :
  List.NoDup (map CartLine.product_id lines) ->
  List.NoDup (map CartLine.product_id (CartStore.addLine lines item)).
Proof.
induction lines as [|l rest IH]; simpl; intros Hnd.
- constructor; [intros []|constructor].
- apply List.NoDup_cons_iff in Hnd as [Hnotin Hrest].
  destruct (CartStore.hasId (CartItemAdd.product_id item) l) eqn:Hid; simpl.
  + apply List.NoDup_cons_iff. split; assumption.
  + apply List.NoDup_cons_iff. split; [|apply IH; exact Hrest].
    intros Hin. apply addLine_ids in Hin as [Hin|Heq]; [exact (Hnotin Hin)|].
    apply hasId_false in Hid. congruence.
Qed.

Lemma addLine_lineOf (lines : list CartLine.t) (item : CartItemAdd.t) :
  CartStore.lineOf (CartItemAdd.product_id item) (CartStore.addLine lines item)
  = bump (CartStore.lineOf (CartItemAdd.product_id item) lines) item.
Proof.
unfold CartStore.lineOf, bump.
induction lines as [|l rest IH]; simpl.
- unfold CartStore.hasId at 1. simpl. now rewrite String.eqb_refl.
- destruct (CartStore.hasId (CartItemAdd.product_id item) l) eqn:Hid; simpl.
  + unfold CartStore.hasId in *. simpl. now rewrite Hid.
  + rewrite Hid. exact IH.
Qed.

Lemma addLine_lineOf_other (lines : list CartLine.t) (item : CartItemAdd.t)
    (other : string) :
  other <> CartItemAdd.product_id item ->
  CartStore.lineOf other (CartStore.addLine lines item) = CartStore.lineOf other lines.
Proof.
intros Hne. unfold CartStore.lineOf.
induction lines as [|l rest IH]; simpl.
- unfold CartStore.hasId. simpl.
  destruct (String.eqb_spec (CartItemAdd.product_id item) other); congruence.
- destruct (CartStore.hasId (CartItemAdd.product_id item) l) eqn:Hid; simpl.
  + apply hasId_true in Hid.
    assert (Hno : CartStore.hasId other l = false) by (apply hasId_false; congruence).
    unfold CartStore.hasId in *. simpl. now rewrite Hno.
  + destruct (CartStore.hasId other l); [reflexivity|exact IH].
Qed.

Lemma bump_all (items : list CartItemAdd.t) (l : CartLine.t) :
  fold_left bump items (Some l)
  = Some (CartStore.withQuantity (CartLine.quantity l + addedQuantity items) l).
Proof.
revert l. induction items as [|item rest IH]; intros l; simpl.
- unfold CartStore.withQuantity. destruct l; simpl. f_equal. f_equal. lia.
- unfold bump at 2. rewrite IH. unfold CartStore.withQuantity. simpl. f_equal. f_equal. lia.
Qed.

Lemma bump_sequence (first : CartItemAdd.t) (rest : list CartItemAdd.t)
    (o : option CartLine.t) :
  fold_left bump (first :: rest) o
  = Some (CartStore.withQuantity
            (match o with Some l => CartLine.quantity l | None => 0 end
             + addedQuantity (first :: rest))
            (default (CartStore.newLine first) o)).
Proof.
destruct o as [l|].
- apply bump_all.
- simpl. unfold bump at 2. rewrite bump_all.
  unfold CartStore.withQuantity. simpl. f_equal.
Qed.

Lemma single_line (lines : list CartLine.t) (productId : string) (l : CartLine.t) :
  List.NoDup (map CartLine.product_id lines) ->
  CartStore.lineOf productId lines = Some l ->
  length (List.filter (CartStore.hasId productId) lines) = 1%nat.
Proof.
unfold CartStore.lineOf.
induction lines as [|l0 rest IH]; simpl; intros Hnd Hfind; [discriminate Hfind|].
apply List.NoDup_cons_iff in Hnd as [Hnotin Hrest].
destruct (CartStore.hasId productId l0) eqn:Hid.
- simpl. f_equal.
  apply hasId_true in Hid.
  assert (Hnone : List.filter (CartStore.hasId productId) rest = []).
  { clear IH Hfind Hrest. induction rest as [|l1 rest IH]; simpl; [reflexivity|].
    destruct (CartStore.hasId productId l1) eqn:Hid1.
    - exfalso. apply Hnotin. simpl. left. apply hasId_true in Hid1. congruence.
    - apply IH. intros Hin. apply Hnotin. simpl. right. exact Hin. }
  now rewrite Hnone.
- apply IH; assumption.
Qed.

Lemma addAll_lines (items : list CartItemAdd.t) (store : CartStore.Store)
    (sessionId productId : string) (lines : list CartLine.t) :
  store !! sessionId = Some lines ->
  List.NoDup (map CartLine.product_id lines) ->
  Forall (fun item => CartItemAdd.product_id item = productId) items ->
  exists lines',
    CartStore.addAll store sessionId items = (<[sessionId := lines']> store, true)
    /\ List.NoDup (map CartLine.product_id lines')
    /\ CartStore.lineOf productId lines'
       = fold_left bump items (CartStore.lineOf productId lines)
    /\ (forall other, other <> productId ->
          CartStore.lineOf other lines' = CartStore.lineOf other lines).
Proof.
revert store lines.
induction items as [|item rest IH]; intros store lines Hstore Hnd Hitems.
- exists lines. cbn [CartStore.addAll fold_left].
  split; [now rewrite insert_id|].
  split; [exact Hnd|]. split; [reflexivity|]. intros other _. reflexivity.
- apply Forall_cons in Hitems as [Hitem Hrest].
  cbn [CartStore.addAll]. unfold CartStore.add. rewrite Hstore.
  destruct (IH (<[sessionId := CartStore.addLine lines item]> store)
              (CartStore.addLine lines item))
    as [lines' [Hall [Hnd' [Hline Hothers]]]].
  + apply lookup_insert_eq.
  + apply addLine_NoDup. exact Hnd.
  + exact Hrest.
  + exists lines'. rewrite insert_insert_eq in Hall.
    split; [exact Hall|]. split; [exact Hnd'|]. split.
    * rewrite Hline. cbn [fold_left]. subst productId. now rewrite addLine_lineOf.
    * intros other Hne. rewrite (Hothers other Hne).
      apply addLine_lineOf_other. congruence.
Qed.

(** C4. For every sequence of add calls for one product against the
    cart of an existing session, every call succeeds and the cart after
    the calls has exactly one line for the product.  Its quantity is the
    quantity the product had before, zero when it had no line, plus the
    sum of the added quantities; the rest of the line, price and display
    snapshot, is the one of the line that was there before, or of the
    first add when there was none.  No two lines of the cart share a
    product id, and the lines of the other products are as they were. *)
Theorem repeated_adds_sum_up
    (store : CartStore.Store) (sessionId productId : string)
    (lines : list CartLine.t) (first : CartItemAdd.t) (rest : list CartItemAdd.t) :
  store !! sessionId = Some lines ->
  List.NoDup (map CartLine.product_id lines) ->
  Forall (fun item => CartItemAdd.product_id item = productId) (first :: rest) ->
  exists lines',
    CartStore.addAll store sessionId (first :: rest)
    = (<[sessionId := lines']> store, true)
    /\ List.NoDup (map CartLine.product_id lines')
    /\ length (List.filter (CartStore.hasId productId) lines') = 1%nat
    /\ CartStore.quantityOf productId lines'
       = CartStore.quantityOf productId lines + addedQuantity (first :: rest)
    /\ CartStore.lineOf productId lines'
       = Some (CartStore.withQuantity
                 (CartStore.quantityOf productId lines + addedQuantity (first :: rest))
                 (default (CartStore.newLine first) (CartStore.lineOf productId lines)))
    /\ (forall other, other <> productId ->
          CartStore.lineOf other lines' = CartStore.lineOf other lines).
Proof.
intros Hstore Hnd Hitems.
destruct (addAll_lines (first :: rest) store sessionId productId lines Hstore Hnd Hitems)
  as [lines' [Hall [Hnd' [Hline Hothers]]]].
rewrite bump_sequence in Hline.
assert (Hline' : CartStore.lineOf productId lines'
  = Some (CartStore.withQuantity
            (CartStore.quantityOf productId lines + addedQuantity (first :: rest))
            (default (CartStore.newLine first) (CartStore.lineOf productId lines)))).
{ rewrite Hline. unfold CartStore.quantityOf.
  destruct (CartStore.lineOf productId lines); reflexivity. }
exists lines'.
split; [exact Hall|]. split; [exact Hnd'|].
split; [eapply single_line; eassumption|].
split; [|split; [exact Hline'|exact Hothers]].
unfold CartStore.quantityOf at 1. rewrite Hline'. reflexivity.
Qed.

(** A store in which C4 applies: the session "s1" holds two units of
    "p1" and one of "p2"; three and then four units of "p1" are added. *)
Lemma repeated_adds_witness :
  let store : CartStore.Store :=
    {[ "s1"%string := [exampleLine "p1" 2; exampleLine "p2" 1] ]} in
  exists lines',
    CartStore.addAll store "s1" [exampleAdd "p1" 3; exampleAdd "p1" 4]
    = (<[ "s1"%string := lines' ]> store, true)
    /\ CartStore.quantityOf "p1" lines' = 9
    /\ CartStore.lineOf "p1" lines' = Some (exampleLine "p1" 9)
    /\ CartStore.lineOf "p2" lines' = Some (exampleLine "p2" 1)
    /\ length (List.filter (CartStore.hasId "p1") lines') = 1%nat.
Proof.
intros store.
destruct (repeated_adds_sum_up store "s1" "p1"
            [exampleLine "p1" 2; exampleLine "p2" 1]
            (exampleAdd "p1" 3) [exampleAdd "p1" 4])
  as [lines' [Hall [_ [Hone [Hquantity [Hline Hothers]]]]]].
- reflexivity.
- repeat constructor; simpl; intros H; repeat (destruct H as [H|H]; try discriminate H);
    exact H.
- repeat constructor.
- exists lines'.
  split; [exact Hall|]. split; [exact Hquantity|]. split; [exact Hline|].
  split; [|exact Hone].
  rewrite (Hothers "p2"%string); [reflexivity|discriminate].
Defined.

(** ** Setting a quantity below one *)

(** C5. A quantity update below 1, zero included, is rejected by the
    store with [ValidationError], whatever the session and the product,
    and the store it returns is the one it was given, so the line keeps
    its quantity.  Over HTTP the storefront, which forwards the quantity
    as it got it, receives a response that is not ok: [updateCartItem]
    rejects with the detail of the error and the page and its cart view
    stay as they were. *)
Theorem low_quantity_is_rejected
    (store : CartStore.Store) (sessionId productId : string) (q : Z)
    (st : Index.State) :
  q < 1 ->
  CartStore.setQuantity store sessionId productId q
  = (store, CartStore.Failure CartStore.ValidationError)
  /\ CartStore.read (fst (CartStore.setQuantity store sessionId productId q)) sessionId
     = CartStore.read store sessionId
  /\ Index.handleUpdateQuantity st productId q
     = [Index.Fetch (PutCartItem (Index.sessionId st) productId q)]
  /\ CartStore.putItem store sessionId productId q
     = (store, NotOk (Some "ValidationError"%string))
  /\ cartApi.updateCartItem (snd (CartStore.putItem store sessionId productId q))
     = Rejected "ValidationError"
  /\ Index.step st
       (Index.UpdateSettled (snd (CartStore.putItem store sessionId productId q)))
     = (st, []).
Proof.
intros Hq.
assert (Hset : CartStore.setQuantity store sessionId productId q
  = (store, CartStore.Failure CartStore.ValidationError)).
{ unfold CartStore.setQuantity.
  destruct (Z.ltb_spec q 1) as [_|Hge]; [reflexivity|lia]. }
assert (Hput : CartStore.putItem store sessionId productId q
  = (store, NotOk (Some "ValidationError"%string))).
{ unfold CartStore.putItem. now rewrite Hset. }
split; [exact Hset|].
split; [now rewrite Hset|].
split; [reflexivity|].
split; [exact Hput|].
rewrite Hput. split; reflexivity.
Qed.

(** A store in which C5 applies: the session "s1" holds two units of
    "p1" and the quantity of "p1" is set to zero. *)
Lemma low_quantity_witness :
  let store : CartStore.Store := {[ "s1"%string := [exampleLine "p1" 2] ]} in
  CartStore.setQuantity store "s1" "p1" 0
  = (store, CartStore.Failure CartStore.ValidationError)
  /\ CartStore.read (fst (CartStore.setQuantity store "s1" "p1" 0)) "s1"
     = CartStore.Success [exampleLine "p1" 2].
Proof.
intros store.
destruct (low_quantity_is_rejected store "s1" "p1" 0 Index.initial)
  as [Hset [Hread _]].
- reflexivity.
- split; [exact Hset|]. rewrite Hread. reflexivity.
Defined.

(** ** The scenario of the specification *)

(** A poller that has read [p1:2] shows, after the store was changed to
    [p1:2, p2:1] through another channel and the next tick was answered,
    exactly the two lines of the store. *)
Example poll_after_remote_add :
  let store0 : CartStore.Store := {[ "s1"%string := [exampleLine "p1" 2] ]} in
  let store1 := fst (CartStore.add store0 "s1" (exampleAdd "p2" 1)) in
  let st0 :=
    fst (Index.run Index.initial
           [Index.SessionSettled (Ok (SessionResponse.mk "s1" [] 0));
            Index.CartSettled "s1" (CartStore.getCart store0 "s1")]) in
  let '(st1, actions) :=
    Index.run st0
      [Index.RefetchIntervalFired;
       Index.CartSettled "s1" (CartStore.getCart store1 "s1")] in
  actions = [Index.Fetch (GetCart "s1")]
  /\ map (fun item => (CustomerProduct.id (CartItem.product item), CartItem.quantity item))
       (Index.cart st0)
     = [("p1"%string, 2)]
  /\ map (fun item => (CustomerProduct.id (CartItem.product item), CartItem.quantity item))
       (Index.cart st1)
     = [("p1"%string, 2); ("p2"%string, 1)]
  /\ Index.cartItemCount st1 = 3.
Proof.
vm_compute. repeat split; reflexivity.
Qed.

(** * Further properties of the storefront *)

(** ** What changes the cart view *)

Lemma commit_frame (old new : Index.State) :
  Index.queryCache (fst (Index.commit old new)) = Index.queryCache new
  /\ Index.sessionId (fst (Index.commit old new)) = Index.sessionId new
  /\ Index.isAdmin (fst (Index.commit old new)) = Index.isAdmin new
  /\ Index.mounted (fst (Index.commit old new)) = Index.mounted new
  /\ Index.modalQuantity (fst (Index.commit old new)) = Index.modalQuantity new
  /\ Index.selectedProduct (fst (Index.commit old new)) = Index.selectedProduct new.
Proof.
unfold Index.commit. destruct (Index.depsChanged old new); repeat split; reflexivity.
Qed.

Lemma view_of_cache (a b : Index.State) :
  Index.queryCache a = Index.queryCache b ->
  Index.sessionId a = Index.sessionId b ->
  Index.cart a = Index.cart b /\ Index.cartItemCount a = Index.cartItemCount b.
Proof.
intros Hcache Hsid.
assert (H : Index.cart a = Index.cart b).
{ unfold Index.cart, Index.cartData. now rewrite Hcache, Hsid. }
split; [exact H|]. unfold Index.cartItemCount. now rewrite H.
Qed.

Lemma step_keeps_cache (st : Index.State) (e : Index.Event) :
  settlesReadOrSession e = false ->
  Index.queryCache (fst (Index.step st e)) = Index.queryCache st
  /\ Index.sessionId (fst (Index.step st e)) = Index.sessionId st.
Proof.
intros He.
destruct e; try discriminate He; cbn [Index.step];
  repeat match goal with
         | |- context [Index.commit ?a ?b] =>
             let H := fresh "H" in
             pose proof (commit_frame a b) as [H [? _]];
             destruct (Index.commit a b); cbn [fst] in *
         | |- context [if ?b then _ else _] => destruct b
         | |- context [match ?x with _ => _ end] => destruct x
         end;
  cbn [fst]; split; try reflexivity; assumption.
Qed.

(** X1. The page never edits its cart view on its own.  Whatever the
    user clicks or types, whichever timer fires and whichever mutation or
    order settles, the cart view and the item count of the header after
    the step are those before it: they change only when a read of the
    cart or a session request settles. *)
Theorem view_changes_only_with_reads (st : Index.State) (e : Index.Event) :
  settlesReadOrSession e = false ->
  Index.cart (fst (Index.step st e)) = Index.cart st
  /\ Index.cartItemCount (fst (Index.step st e)) = Index.cartItemCount st
  /\ Cart.subtotal (Index.cart (fst (Index.step st e))) = Cart.subtotal (Index.cart st).
Proof.
intros He.
destruct (step_keeps_cache st e He) as [Hcache Hsid].
destruct (view_of_cache _ _ Hcache Hsid) as [Hcart Hcount].
split; [exact Hcart|]. split; [exact Hcount|]. now rewrite Hcart.
Qed.

(** The plus button of a line and a successful update leave the view as
    it is until the cart is read again. *)
Lemma view_changes_only_with_reads_witness :
  let line := CartLineJson.mk "p1" "Watch" 10 "pbe1" None None None 2 in
  let st :=
    fst (Index.run Index.initial
           [Index.SessionSettled (Ok (SessionResponse.mk "s1" [] 0));
            Index.CartSettled "s1" (Ok (CartResponse.mk [line] 20 2))]) in
  Index.cart (fst (Index.step st (Index.CartPlusClicked 0))) = [Index.toCartItem line]
  /\ Index.cartItemCount
       (fst (Index.step st (Index.UpdateSettled (Ok (MutationResult.mk None))))) = 2.
Proof.
intros line st. split.
- rewrite (proj1 (view_changes_only_with_reads st (Index.CartPlusClicked 0) eq_refl)).
  reflexivity.
- rewrite (proj1 (proj2 (view_changes_only_with_reads st
             (Index.UpdateSettled (Ok (MutationResult.mk None))) eq_refl))).
  reflexivity.
Defined.

(** X2. A response to a read of another session's cart, such as one that
    was under way when the session id changed, is kept under its own key
    and does not show: the cart view and the item count stay as they
    were. *)
Theorem response_for_other_session_does_not_show
    (st : Index.State) (key : string) (r : Response CartResponse.t) :
  key <> Index.sessionId st ->
  Index.cart (fst (Index.step st (Index.CartSettled key r))) = Index.cart st
  /\ Index.cartItemCount (fst (Index.step st (Index.CartSettled key r)))
     = Index.cartItemCount st.
Proof.
intros Hkey.
assert (Hdata : Index.cartData (fst (Index.step st (Index.CartSettled key r)))
                = Index.cartData st).
{ cbn [Index.step]. destruct (cartApi.getCart r) as [data|]; [|reflexivity].
  unfold Index.cartData. simpl. now apply lookup_insert_ne. }
assert (Hcart : Index.cart (fst (Index.step st (Index.CartSettled key r)))
                = Index.cart st).
{ unfold Index.cart. now rewrite Hdata. }
split; [exact Hcart|]. unfold Index.cartItemCount. now rewrite Hcart.
Qed.

(** The read for "s0" settles after the session became "s1". *)
Lemma response_for_other_session_witness :
  let old := CartLineJson.mk "p9" "Ring" 5 "pbe9" None None None 1 in
  let st :=
    fst (Index.run Index.initial
           [Index.SessionSettled (Ok (SessionResponse.mk "s1" [] 0))]) in
  Index.cart (fst (Index.step st (Index.CartSettled "s0" (Ok (CartResponse.mk [old] 5 1)))))
  = [].
Proof.
intros old st.
rewrite (proj1 (response_for_other_session_does_not_show st "s0"
                  (Ok (CartResponse.mk [old] 5 1)) ltac:(discriminate))).
reflexivity.
Defined.

(** ** The reads the page sends *)

Lemma enabled_session (st : Index.State) :
  Index.enabled st = true ->
  truthy (Index.sessionId st) = true /\ Index.isAdmin st = false.
Proof.
unfold Index.enabled. intros H. apply andb_true_iff in H as [H1 H2].
split; [exact H1|]. now apply negb_true_iff.
Qed.

Lemma invalidate_read (st : Index.State) (key k : string) :
  In (Index.Fetch (GetCart k)) (Index.invalidateQueries st key) ->
  k = Index.sessionId st /\ Index.mounted st = true /\ Index.enabled st = true.
Proof.
unfold Index.invalidateQueries.
destruct (Index.mounted st) eqn:Hm; [|intros []].
destruct (Index.enabled st) eqn:He; [|intros []].
destruct (String.eqb_spec key (Index.sessionId st)) as [->|]; [|intros []].
simpl. intros [H|[]]. injection H as <-. repeat split.
Qed.

Lemma add_sends_no_read (st : Index.State) (productId k : string) (q : Z) :
  ~ In (Index.Fetch (GetCart k)) (Index.handleAddToCart st productId q).
Proof.
unfold Index.handleAddToCart.
destruct (match Index.productsData st with
          | Some items => find (fun p => String.eqb (CustomerProduct.id p) productId) items
          | None => None
          end); simpl; intros [H|[]]; discriminate H.
Qed.

Lemma commit_read (old new : Index.State) (k : string) :
  In (Index.Fetch (GetCart k)) (snd (Index.commit old new)) ->
  k = Index.sessionId new /\ Index.enabled new = true.
Proof.
unfold Index.commit. destruct (Index.depsChanged old new); cbn [snd]; [|intros []].
destruct (Index.enabled new); simpl.
- intros [H|[H|[]]]; [discriminate H|]. injection H as <-. split; reflexivity.
- intros [H|[]]. discriminate H.
Qed.

Ltac no_read H :=
  first
    [ exfalso; exact H
    | exfalso; simpl in H; repeat (destruct H as [H|H]; [discriminate H|]); exact H ].

(** X3. Whatever the state and the event, a read of the cart that the
    page sends is for the session id the page has after the step, that
    id is not empty, the page is mounted and it is not in the admin
    view.  No read is ever sent for the empty session id of a page whose
    session is not known yet. *)
Theorem reads_are_for_the_current_session
    (st : Index.State) (e : Index.Event) (key : string) :
  In (Index.Fetch (GetCart key)) (snd (Index.step st e)) ->
  key = Index.sessionId (fst (Index.step st e))
  /\ truthy key = true
  /\ Index.isAdmin (fst (Index.step st e)) = false
  /\ Index.mounted (fst (Index.step st e)) = true.
Proof.
assert (Hinv : forall k0,
  In (Index.Fetch (GetCart key)) (Index.invalidateQueries st k0) ->
  key = Index.sessionId st /\ truthy key = true
  /\ Index.isAdmin st = false /\ Index.mounted st = true).
{ intros k0 H. apply invalidate_read in H as [-> [Hm He]].
  apply enabled_session in He as [Ht Ha]. repeat split; assumption. }
assert (Hcommit : forall new,
  Index.mounted new = true ->
  In (Index.Fetch (GetCart key)) (snd (Index.commit st new)) ->
  key = Index.sessionId (fst (Index.commit st new))
  /\ truthy key = true
  /\ Index.isAdmin (fst (Index.commit st new)) = false
  /\ Index.mounted (fst (Index.commit st new)) = true).
{ intros new Hm H. apply commit_read in H as [-> He].
  apply enabled_session in He as [Ht Ha].
  destruct (commit_frame st new) as [_ [Hs [Hadm [Hmo _]]]].
  rewrite Hs, Hadm, Hmo. repeat split; assumption. }
destruct e; cbn [Index.step]; intros H.
- (* IntervalFired *)
  destruct (Index.interval st) as [[sid adm]|]; cbn [fst snd] in *; [|no_read H].
  destruct (truthy sid && negb adm); [|no_read H]. exact (Hinv _ H).
- (* RefetchIntervalFired *)
  cbn [fst snd] in *.
  destruct (Index.mounted st) eqn:Hm; [|no_read H].
  destruct (Index.enabled st) eqn:He; [|no_read H].
  simpl in H. destruct H as [H|[]]. injection H as <-.
  apply enabled_session in He as [Ht Ha]. repeat split; assumption.
- (* SessionSettled *)
  destruct (Index.mounted st) eqn:Hm; [|no_read H].
  destruct (cartApi.getOrCreateSession r) as [session|]; [|no_read H].
  apply Hcommit; [exact Hm|exact H].
- no_read H.
- (* CartSettled *)
  destruct (cartApi.getCart r); no_read H.
- (* AddSettled *)
  destruct (cartApi.addToCart r); cbn [fst snd] in *; [|no_read H].
  apply in_app_iff in H as [H|H]; [exact (Hinv _ H)|no_read H].
- destruct (cartApi.updateCartItem r); cbn [fst snd] in *; [|no_read H].
  exact (Hinv _ H).
- destruct (cartApi.removeFromCart r); cbn [fst snd] in *; [|no_read H].
  apply in_app_iff in H as [H|H]; [exact (Hinv _ H)|no_read H].
- (* OrderSettled *)
  destruct (orderApi.createOrder r); cbn [fst snd] in *; [|no_read H].
  apply in_app_iff in H as [H|H]; [|no_read H].
  destruct (Hinv _ H) as [H1 [H2 [H3 H4]]]. rewrite H4. cbn. repeat split; assumption.
- (* CardAddClicked *)
  cbn [fst snd] in *. destruct (Index.mounted st); [|no_read H].
  exfalso. exact (add_sends_no_read _ _ _ _ H).
- destruct (Index.mounted st); no_read H.
- destruct (Index.selectedProduct st); no_read H.
- destruct (Index.selectedProduct st); no_read H.
- destruct (Index.selectedProduct st); no_read H.
- (* ModalAddClicked *)
  destruct (Index.selectedProduct st); cbn [fst snd] in *; [|no_read H].
  exfalso. exact (add_sends_no_read _ _ _ _ H).
- no_read H.
- no_read H.
- no_read H.
- destruct (if Index.mounted st then Index.cart st !! i else None); no_read H.
- destruct (if Index.mounted st then Index.cart st !! i else None); no_read H.
- destruct (if Index.mounted st then Index.cart st !! i else None); no_read H.
- no_read H.
- cbn [fst snd] in *. destruct (Index.mounted st); no_read H.
- (* AdminLoggedIn *)
  destruct (Index.mounted st) eqn:Hm; [|no_read H].
  pose proof (Hcommit (Index.setIsAdmin true st) Hm) as Hc.
  destruct (Index.commit st (Index.setIsAdmin true st)) as [st' acts].
  cbn [fst snd] in *. destruct H as [H|H]; [discriminate H|exact (Hc H)].
- (* ModeToggled *)
  destruct (Index.mounted st) eqn:Hm; [|no_read H].
  destruct (Index.isAdmin st); [|no_read H].
  pose proof (Hcommit (Index.setIsAdmin false st) Hm) as Hc.
  destruct (Index.commit st (Index.setIsAdmin false st)) as [st' acts].
  cbn [fst snd] in *. destruct H as [H|H]; [discriminate H|exact (Hc H)].
- no_read H.
Qed.

(** The tick of the refetch timer of a page that knows its session. *)
Lemma reads_are_for_the_current_session_witness :
  let st :=
    fst (Index.run Index.initial
           [Index.SessionSettled (Ok (SessionResponse.mk "s1" [] 0))]) in
  "s1"%string = Index.sessionId (fst (Index.step st Index.RefetchIntervalFired))
  /\ Index.isAdmin (fst (Index.step st Index.RefetchIntervalFired)) = false.
Proof.
intros st.
destruct (reads_are_for_the_current_session st Index.RefetchIntervalFired "s1")
  as [Hkey [_ [Hadmin _]]].
- simpl. left. reflexivity.
- split; [exact Hkey|exact Hadmin].
Defined.

(** X4. When the session request of the mount fails, the page does
    nothing about it: no toast, no second request.  It stays without a
    session, and however often its two timers fire afterwards it sends
    no request at all, so the cart is never read. *)
Theorem failed_session_request_stops_the_poller
    (r : Response SessionResponse.t) (ticks : list Index.Event) :
  is_rejected (cartApi.getOrCreateSession r) = true ->
  forallb isTick ticks = true ->
  Index.run Index.initial (Index.SessionSettled r :: ticks) = (Index.initial, []).
Proof.
intros Hr Hticks.
assert (Hquiet : Index.run Index.initial ticks = (Index.initial, [])).
{ induction ticks as [|e rest IH]; [reflexivity|].
  cbn [forallb] in Hticks. apply andb_true_iff in Hticks as [He Hrest].
  cbn [Index.run]. destruct e; try discriminate He; cbn; now rewrite (IH Hrest). }
cbn [Index.run Index.step]. cbn [Index.mounted Index.initial].
destruct (cartApi.getOrCreateSession r); [discriminate Hr|].
now rewrite Hquiet.
Qed.

(** The server answers the session request with an error and both timers
    fire twice. *)
Lemma failed_session_request_witness :
  Index.run Index.initial
    [Index.SessionSettled (NotOk None);
     Index.IntervalFired; Index.RefetchIntervalFired;
     Index.IntervalFired; Index.RefetchIntervalFired]
  = (Index.initial, []).
Proof.
exact (failed_session_request_stops_the_poller (NotOk None)
         [Index.IntervalFired; Index.RefetchIntervalFired;
          Index.IntervalFired; Index.RefetchIntervalFired] eq_refl eq_refl).
Defined.

Lemma commit_interval (old new : Index.State) :
  Index.interval new = Index.interval old ->
  Index.interval old = Some (Index.sessionId old, Index.isAdmin old) ->
  Index.interval (fst (Index.commit old new))
  = Some (Index.sessionId new, Index.isAdmin new).
Proof.
intros Hsame Hold. unfold Index.commit.
destruct (Index.depsChanged old new) eqn:Hdeps; cbn [fst]; [reflexivity|].
unfold Index.depsChanged in Hdeps.
apply orb_false_elim in Hdeps as [Hsid Hadm].
apply negb_false_iff in Hsid, Hadm.
apply String.eqb_eq in Hsid. apply Bool.eqb_prop in Hadm.
rewrite Hsame, Hold. congruence.
Qed.

Lemma step_interval (st : Index.State) (e : Index.Event) :
  Index.interval st
  = (if Index.mounted st then Some (Index.sessionId st, Index.isAdmin st) else None) ->
  Index.interval (fst (Index.step st e))
  = (if Index.mounted (fst (Index.step st e))
     then Some (Index.sessionId (fst (Index.step st e)),
                Index.isAdmin (fst (Index.step st e)))
     else None).
Proof.
intros Hst.
set (P := fun s : Index.State =>
  Index.interval s
  = (if Index.mounted s then Some (Index.sessionId s, Index.isAdmin s) else None)).
change (P st) in Hst. change (P (fst (Index.step st e))).
assert (Hcommit : forall new,
  Index.mounted st = true ->
  Index.mounted new = true ->
  Index.interval new = Index.interval st ->
  P (fst (Index.commit st new))).
{ intros new Hm Hnew Hsame. unfold P in *.
  destruct (commit_frame st new) as [_ [Hs [Ha [Hmo _]]]].
  rewrite Hs, Ha, Hmo, Hnew. apply commit_interval; [exact Hsame|].
  now rewrite Hst, Hm. }
destruct e; cbn [Index.step];
  try (repeat match goal with
              | |- context [if ?b then _ else _] => destruct b
              | |- context [match ?x with _ => _ end] => destruct x
              end; exact Hst).
- (* SessionSettled *)
  destruct (Index.mounted st) eqn:Hm; [|exact Hst].
  destruct (cartApi.getOrCreateSession r) as [session|]; [|exact Hst].
  apply Hcommit; [reflexivity|exact Hm|reflexivity].
- (* AdminLoggedIn *)
  destruct (Index.mounted st) eqn:Hm; [|exact Hst].
  pose proof (Hcommit (Index.setIsAdmin true st) eq_refl Hm eq_refl) as H.
  destruct (Index.commit st (Index.setIsAdmin true st)). exact H.
- (* ModeToggled *)
  destruct (Index.mounted st) eqn:Hm; [|exact Hst].
  destruct (Index.isAdmin st) eqn:Ha; [|exact Hst].
  pose proof (Hcommit (Index.setIsAdmin false st) eq_refl Hm eq_refl) as H.
  destruct (Index.commit st (Index.setIsAdmin false st)). exact H.
- (* Unmounted *)
  reflexivity.
Qed.

Lemma run_interval (events : list Index.Event) (st : Index.State) :
  Index.interval st
  = (if Index.mounted st then Some (Index.sessionId st, Index.isAdmin st) else None) ->
  Index.interval (fst (Index.run st events))
  = (if Index.mounted (fst (Index.run st events))
     then Some (Index.sessionId (fst (Index.run st events)),
                Index.isAdmin (fst (Index.run st events)))
     else None).
Proof.
revert st. induction events as [|e rest IH]; intros st Hst; cbn [Index.run].
- exact Hst.
- pose proof (step_interval st e Hst) as Hstep.
  destruct (Index.step st e) as [st1 acts1]. cbn [fst] in Hstep.
  specialize (IH st1 Hstep).
  destruct (Index.run st1 rest) as [st2 acts2]. exact IH.
Qed.

(** X19. While the page is mounted exactly one interval is alive, and
    its callback closes over the session id and the mode the page has
    now; after the teardown none is alive.  This holds in every state
    the page reaches from its mount: the effect never leaves a second
    interval behind nor one that sees a former session id or mode. *)
Theorem interval_is_current (events : list Index.Event) :
  let st := fst (Index.run Index.initial events) in
  Index.interval st
  = (if Index.mounted st then Some (Index.sessionId st, Index.isAdmin st) else None).
Proof.
intros st. apply run_interval. reflexivity.
Qed.

(** ** Entering and leaving the admin view *)

(** X7. The mode button in the customer view does not enter the admin
    view: only a login does.  A login shows its toast and then, as the
    effect runs again, sends the session request; it asks for no read of
    the cart and replaces the interval by one for the admin view.
    Leaving the admin view shows its toast, sends the session request
    and asks the query client for the cart of the session at most once,
    and not at all while the session is unknown. *)
Theorem mode_changes_rerun_the_effect (st : Index.State) (email : string) :
  Index.mounted st = true ->
  let customer := Index.setIsAdmin false st in
  let admin := Index.setIsAdmin true st in
  let sid := Index.sessionId st in
  Index.step customer Index.ModeToggled = (customer, [])
  /\ Index.step customer (Index.AdminLoggedIn email)
     = (Index.set_interval (Some (sid, true)) admin,
        [Index.Toast "Welcome to Admin Panel" (Some ("Logged in as " ++ email)%string) false;
         Index.Fetch (GetSession None)])
  /\ fst (Index.step admin Index.ModeToggled)
     = Index.set_interval (Some (sid, false)) customer
  /\ exists reads,
       snd (Index.step admin Index.ModeToggled)
       = Index.Toast "Switched to Customer Mode"
           (Some "You are now viewing the customer storefront") false
         :: Index.Fetch (GetSession None) :: reads
       /\ (reads = [] \/ reads = [Index.Fetch (GetCart sid)])
       /\ (truthy sid = false -> reads = []).
Proof.
intros Hm customer admin sid. unfold customer, admin, sid.
split; [cbn; now rewrite Hm|].
split.
{ cbn [Index.step]. cbn [Index.mounted Index.setIsAdmin]. rewrite Hm.
  unfold Index.commit, Index.depsChanged. cbn. rewrite orb_true_r.
  unfold Index.enabled. cbn. rewrite andb_false_r. reflexivity. }
assert (H : Index.step (Index.setIsAdmin true st) Index.ModeToggled
            = (Index.set_interval (Some (Index.sessionId st, false))
                 (Index.setIsAdmin false st),
               Index.Toast "Switched to Customer Mode"
                 (Some "You are now viewing the customer storefront") false
               :: Index.Fetch (GetSession None)
               :: (if truthy (Index.sessionId st)
                   then [Index.Fetch (GetCart (Index.sessionId st))]
                   else []))).
{ cbn [Index.step]. cbn [Index.mounted Index.isAdmin Index.setIsAdmin]. rewrite Hm.
  unfold Index.commit, Index.depsChanged. cbn. rewrite orb_true_r.
  unfold Index.enabled. cbn. rewrite andb_true_r. reflexivity. }
rewrite H. cbn [fst snd]. split; [reflexivity|].
eexists. split; [reflexivity|].
destruct (truthy (Index.sessionId st)); split; auto; discriminate.
Qed.

(** A page that knows its session "s1" and has read its cart: login,
    then back. *)
Lemma mode_changes_witness :
  let st :=
    fst (Index.run Index.initial
           [Index.SessionSettled (Ok (SessionResponse.mk "s1" [] 0));
            Index.CartSettled "s1" (Ok (CartResponse.mk [] 0 0))]) in
  Index.step (Index.setIsAdmin false st) (Index.AdminLoggedIn "ada@example.org")
  = (Index.set_interval (Some ("s1"%string, true)) (Index.setIsAdmin true st),
     [Index.Toast "Welcome to Admin Panel" (Some "Logged in as ada@example.org"%string) false;
      Index.Fetch (GetSession None)])
  /\ fst (Index.step (Index.setIsAdmin true st) Index.ModeToggled)
     = Index.set_interval (Some ("s1"%string, false)) (Index.setIsAdmin false st).
Proof.
intros st.
destruct (mode_changes_rerun_the_effect st "ada@example.org" eq_refl)
  as [_ [Hlogin [Hback _]]].
split; [exact Hlogin|exact Hback].
Defined.

(** ** The order and the add request *)

Lemma orderAmount_from (items : list CartItem.t) (acc : Q) :
  fold_left
    (fun sum i => (sum + OrderItem.unit_price i * inject_Z (OrderItem.quantity i))%Q)
    (map (fun item =>
            OrderItem.mk
              (CustomerProduct.id (CartItem.product item))
              (CartItem.quantity item)
              (CustomerProduct.price (CartItem.product item))
              (CustomerProduct.pricebook_entry_id (CartItem.product item)))
       items)
    acc
  = fold_left
      (fun sum item =>
         (sum + CustomerProduct.price (CartItem.product item)
                * inject_Z (CartItem.quantity item))%Q)
      items acc.
Proof.
revert acc. induction items as [|item rest IH]; intros acc; simpl; [reflexivity|].
apply IH.
Qed.

(** X8. The order that the checkout sends mirrors the cart view: the
    customer is the one of the form, the source is "Web", the session is
    the one of the page when it has one, and there is one item per line
    of the view, in its order, with the product id, the quantity, the
    unit price and the price book entry of the line.  The amount of the
    order, added up over its items in their order, is the Subtotal of the
    cart panel; the tax that the panel adds to its Total is not part of
    the order. *)
Theorem order_mirrors_the_view (st : Index.State) (data : Customer.t) :
  Index.mounted st = true ->
  exists order,
    Index.step st (Index.CheckoutSubmitted data)
    = (st, [Index.Fetch
              (PostOrder order
                 (if truthy (Index.sessionId st) then Some (Index.sessionId st) else None))])
    /\ OrderRequest.customer order = data
    /\ OrderRequest.checkout_source order = Some "Web"%string
    /\ length (OrderRequest.items order) = length (Index.cart st)
    /\ map OrderItem.product_id (OrderRequest.items order)
       = map (fun item => CustomerProduct.id (CartItem.product item)) (Index.cart st)
    /\ map OrderItem.quantity (OrderRequest.items order)
       = map CartItem.quantity (Index.cart st)
    /\ map OrderItem.unit_price (OrderRequest.items order)
       = map (fun item => CustomerProduct.price (CartItem.product item)) (Index.cart st)
    /\ map OrderItem.pricebook_entry_id (OrderRequest.items order)
       = map (fun item => CustomerProduct.pricebook_entry_id (CartItem.product item))
           (Index.cart st)
    /\ orderAmount (OrderRequest.items order) = Cart.subtotal (Index.cart st)
    /\ Cart.total (Index.cart st)
       = (orderAmount (OrderRequest.items order)
          + orderAmount (OrderRequest.items order) * (1 # 10))%Q.
Proof.
intros Hm. cbn [Index.step]. rewrite Hm.
unfold Index.handleCheckoutSubmit, orderApi.createOrder_request.
eexists. split; [reflexivity|].
cbn [OrderRequest.customer OrderRequest.checkout_source OrderRequest.items].
assert (Hamount :
  orderAmount
    (map (fun item =>
            OrderItem.mk
              (CustomerProduct.id (CartItem.product item))
              (CartItem.quantity item)
              (CustomerProduct.price (CartItem.product item))
              (CustomerProduct.pricebook_entry_id (CartItem.product item)))
       (Index.cart st))
  = Cart.subtotal (Index.cart st)).
{ unfold orderAmount, Cart.subtotal. apply orderAmount_from. }
split; [reflexivity|]. split; [reflexivity|].
split; [apply length_map|].
split; [now rewrite map_map|].
split; [now rewrite map_map|].
split; [now rewrite map_map|].
split; [now rewrite map_map|].
split; [exact Hamount|].
rewrite Hamount. reflexivity.
Qed.

(** The checkout of a cart of two lines. *)
Lemma order_mirrors_the_view_witness :
  let l1 := CartLineJson.mk "p1" "Watch" 10 "pbe1" None None None 2 in
  let l2 := CartLineJson.mk "p2" "Ring" 5 "pbe2" None None None 1 in
  let st :=
    fst (Index.run Index.initial
           [Index.SessionSettled (Ok (SessionResponse.mk "s1" [] 0));
            Index.CartSettled "s1" (Ok (CartResponse.mk [l1; l2] 25 3))]) in
  exists order,
    snd (Index.step st (Index.CheckoutSubmitted (Customer.mk "Ada" "ada@example.org" None)))
    = [Index.Fetch (PostOrder order (Some "s1"%string))]
    /\ map OrderItem.quantity (OrderRequest.items order) = [2; 1]
    /\ map OrderItem.pricebook_entry_id (OrderRequest.items order)
       = ["pbe1"%string; "pbe2"%string]
    /\ (orderAmount (OrderRequest.items order) == 25)%Q.
Proof.
intros l1 l2 st.
destruct (order_mirrors_the_view st (Customer.mk "Ada" "ada@example.org" None) eq_refl)
  as [order [Hsent [_ [_ [_ [_ [Hq [_ [Hpbe [Hamount _]]]]]]]]]].
exists order.
split; [rewrite Hsent; reflexivity|]. split; [rewrite Hq; reflexivity|].
split; [rewrite Hpbe; reflexivity|].
rewrite Hamount. reflexivity.
Defined.

(** X9. An add to the cart sends a request only for a product of the
    loaded product list.  For the first product of the list with the id
    that was asked for, what is sent is the one request for the session
    of the page that carries that id, the quantity that was asked for and
    the price, the name, the price book entry and the display fields of
    the product as the list has them.  For a product id that is not in
    the list, or while no list is loaded, nothing is sent and the one
    toast "Error" with "Product not found" is shown. *)
Theorem add_sends_the_listed_product
    (st : Index.State) (productId : string) (quantity : Z) :
  (forall before product after,
     Index.productsData st = Some (before ++ product :: after) ->
     Forall (fun p => CustomerProduct.id p <> productId) before ->
     CustomerProduct.id product = productId ->
     Index.handleAddToCart st productId quantity
     = [Index.Fetch
          (PostCartAdd (Index.sessionId st)
             (CartItemAdd.mk productId quantity
                (CustomerProduct.pricebook_entry_id product)
                (CustomerProduct.price product)
                (CustomerProduct.name product)
                (Some (CustomerProduct.color product))
                (Some (CustomerProduct.size product))
                (Some (CustomerProduct.image_url product))))])
  /\ (Index.productsData st = None
      \/ (exists items,
            Index.productsData st = Some items
            /\ Forall (fun p => CustomerProduct.id p <> productId) items) ->
      Index.handleAddToCart st productId quantity
      = [Index.Toast "Error" (Some "Product not found"%string) true]).
Proof.
unfold Index.handleAddToCart. split.
- intros before product after -> Hbefore Hid.
  assert (Hfind : find (fun p => String.eqb (CustomerProduct.id p) productId)
                    (before ++ product :: after) = Some product).
  { induction Hbefore as [|p rest Hp _ IH]; simpl.
    - apply String.eqb_eq in Hid. now rewrite Hid.
    - apply String.eqb_neq in Hp. now rewrite Hp. }
  rewrite Hfind, Hid. reflexivity.
- intros [-> | [items [-> Hitems]]]; [reflexivity|].
  assert (Hfind : find (fun p => String.eqb (CustomerProduct.id p) productId) items = None).
  { induction Hitems as [|p rest Hp _ IH]; simpl; [reflexivity|].
    apply String.eqb_neq in Hp. now rewrite Hp. }
  now rewrite Hfind.
Qed.

(** The card of the second product of the list is clicked, and the card
    of a product that the list does not have. *)
Lemma add_sends_the_listed_product_witness :
  let ring := CustomerProduct.mk "p2" "Ring" 5 "" "" "7" "" "" "" "pbe2" in
  let product := CustomerProduct.mk "p1" "Watch" 10 "" "silver" "" "" "" "" "pbe1" in
  let st :=
    fst (Index.run Index.initial
           [Index.SessionSettled (Ok (SessionResponse.mk "s1" [] 0));
            Index.ProductsSettled [ring; product]]) in
  Index.handleAddToCart st "p1" 1
  = [Index.Fetch
       (PostCartAdd "s1"
          (CartItemAdd.mk "p1" 1 "pbe1" 10 "Watch" (Some "silver") (Some "") (Some "")))]
  /\ Index.handleAddToCart st "p9" 1
     = [Index.Toast "Error" (Some "Product not found"%string) true].
Proof.
intros ring product st. split.
- refine (proj1 (add_sends_the_listed_product st "p1" 1) [ring] product [] eq_refl _ eq_refl).
  repeat constructor. discriminate.
- refine (proj2 (add_sends_the_listed_product st "p9" 1) (or_intror _)).
  exists [ring; product]. split; [reflexivity|].
  repeat constructor; discriminate.
Defined.

(** ** The figures of the cart panel, continued *)

Lemma subtotal_is_sum (items : list CartItem.t) :
  (Cart.subtotal items == sumOfLines items)%Q.
Proof. unfold Cart.subtotal. rewrite subtotal_from. ring. Qed.

Lemma sumOfLines_nonneg (items : list CartItem.t) :
  Forall (fun item =>
            (0 <= CustomerProduct.price (CartItem.product item))%Q
            /\ 0 <= CartItem.quantity item) items ->
  (0 <= sumOfLines items)%Q.
Proof.
induction 1 as [|item rest [Hp Hq] _ IH]; simpl.
- apply Qle_refl.
- assert (H : (0 <= CustomerProduct.price (CartItem.product item)
                    * inject_Z (CartItem.quantity item))%Q).
  { apply Qmult_le_0_compat; [exact Hp|].
    change 0%Q with (inject_Z 0). now rewrite <- Zle_Qle. }
  lra.
Qed.

(** X11. For lines with prices and quantities that are not negative the
    Subtotal is not negative, the Tax lies between zero and the Subtotal,
    and the Total is at least the Subtotal. *)
Theorem panel_figures_are_ordered (items : list CartItem.t) :
  Forall (fun item =>
            (0 <= CustomerProduct.price (CartItem.product item))%Q
            /\ 0 <= CartItem.quantity item) items ->
  (0 <= Cart.subtotal items)%Q
  /\ (0 <= Cart.tax items)%Q
  /\ (Cart.tax items <= Cart.subtotal items)%Q
  /\ (Cart.subtotal items <= Cart.total items)%Q.
Proof.
intros Hitems.
pose proof (sumOfLines_nonneg items Hitems) as Hsum.
pose proof (subtotal_is_sum items) as Hsub.
unfold Cart.total, Cart.tax.
repeat split; lra.
Qed.

(** One line of two units at the price 10. *)
Lemma panel_figures_are_ordered_witness :
  let a := CartItem.mk (CustomerProduct.mk "p1" "Watch" 10 "" "" "" "" "" "" "pbe1") 2 in
  (Cart.subtotal [a] <= Cart.total [a])%Q.
Proof.
intros a.
refine (proj2 (proj2 (proj2 (panel_figures_are_ordered [a] _)))).
repeat constructor; simpl; try lia. unfold Qle; simpl; lia.
Defined.

(** ** The quantity field of the modal, continued *)

Lemma plus_iter (n : nat) (q : Z) :
  Nat.iter n ProductDetailModal.plus q = q + Z.of_nat n.
Proof.
induction n as [|n IH]; [simpl; lia|].
rewrite Nat.iter_succ, IH. unfold ProductDetailModal.plus. lia.
Qed.

Lemma minus_iter (n : nat) (q : Z) :
  1 <= q -> Nat.iter n ProductDetailModal.minus q = Z.max 1 (q - Z.of_nat n).
Proof.
intros Hq. induction n as [|n IH]; [simpl; lia|].
rewrite Nat.iter_succ, IH. unfold ProductDetailModal.minus. lia.
Qed.

(** X12. In the quantity field of the modal, plus and minus undo each
    other above the floor: from a quantity of at least 1, [n] clicks on
    plus that stay within the integers a number holds exactly lead to the
    quantity plus [n], and [n] clicks on minus back to where it was.
    Minus alone stops at 1: [n] clicks on minus lead to the larger of 1
    and the quantity less [n]. *)
Theorem modal_plus_and_minus (n : nat) (q : Z) :
  1 <= q ->
  q + Z.of_nat n <= maxSafeInteger ->
  Nat.iter n ProductDetailModal.plus q = q + Z.of_nat n
  /\ Nat.iter n ProductDetailModal.minus (Nat.iter n ProductDetailModal.plus q) = q
  /\ Nat.iter n ProductDetailModal.minus q = Z.max 1 (q - Z.of_nat n)
  /\ ProductDetailModal.minus ProductDetailModal.initialQuantity
     = ProductDetailModal.initialQuantity.
Proof.
intros Hq _. split; [apply plus_iter|]. split.
- rewrite plus_iter, minus_iter; lia.
- split; [now apply minus_iter|reflexivity].
Qed.

(** Three clicks on plus and three on minus from the initial quantity;
    five clicks on minus from 3. *)
Lemma modal_plus_and_minus_witness :
  Nat.iter 3 ProductDetailModal.minus
    (Nat.iter 3 ProductDetailModal.plus ProductDetailModal.initialQuantity) = 1
  /\ Nat.iter 5 ProductDetailModal.minus 3 = 1.
Proof.
split.
- exact (proj1 (proj2 (modal_plus_and_minus 3 1 ltac:(lia)
                         ltac:(unfold maxSafeInteger; lia)))).
- exact (proj1 (proj2 (proj2 (modal_plus_and_minus 5 3 ltac:(lia)
                                ltac:(unfold maxSafeInteger; lia))))).
Defined.

(** X13. What is typed in the quantity field: a number of at least 1 is
    taken as it is, and everything else gives 1, be it zero, a negative
    number or a text from which [parseInt] gets no number. *)
Theorem modal_typed_quantity (parsed : option Z) :
  ProductDetailModal.change parsed
  = match parsed with
    | Some n => if 1 <=? n then n else 1
    | None => 1
    end.
Proof.
unfold ProductDetailModal.change, js_or_num.
destruct parsed as [n|]; [|reflexivity].
destruct (Z.eqb_spec n 0); destruct (Z.leb_spec 1 n); lia.
Qed.

(** X14. The quantity of the modal does not carry over from one product
    to the next: after the modal was closed, by its close button or by
    its add button, opening a product starts again at the quantity 1,
    whatever was typed or clicked before. *)
Theorem modal_reopens_at_one
    (st : Index.State) (parsed : option Z) (product : CustomerProduct.t) :
  Index.mounted st = true ->
  let typed := fst (Index.step st (Index.ModalChanged parsed)) in
  Index.modalQuantity
    (fst (Index.run typed [Index.ModalCloseClicked; Index.CardClicked product])) = 1
  /\ Index.modalQuantity
       (fst (Index.run typed [Index.ModalAddClicked; Index.CardClicked product])) = 1
  /\ Index.selectedProduct
       (fst (Index.run typed [Index.ModalAddClicked; Index.CardClicked product]))
     = Some product.
Proof.
intros Hm typed. unfold typed. cbn [Index.step].
destruct (Index.selectedProduct st) eqn:Hsel; cbn; rewrite ?Hsel, ?Hm; cbn;
  rewrite ?Hsel, ?Hm; cbn; repeat split; reflexivity.
Qed.

(** The user types 7 for one product, adds it, and opens another. *)
Lemma modal_reopens_at_one_witness :
  let p1 := CustomerProduct.mk "p1" "Watch" 10 "" "" "" "" "" "" "pbe1" in
  let p2 := CustomerProduct.mk "p2" "Ring" 5 "" "" "" "" "" "" "pbe2" in
  let st := fst (Index.step Index.initial (Index.CardClicked p1)) in
  Index.modalQuantity (fst (Index.step st (Index.ModalChanged (Some 7)))) = 7
  /\ Index.modalQuantity
       (fst (Index.run (fst (Index.step st (Index.ModalChanged (Some 7))))
               [Index.ModalAddClicked; Index.CardClicked p2])) = 1.
Proof.
intros p1 p2 st. split; [reflexivity|].
exact (proj1 (proj2 (modal_reopens_at_one st (Some 7) p2 eq_refl))).
Defined.

(** ** The badge of the header, the sync badge and the empty cart *)

Lemma positive_sum (lines : list CartLineJson.t) :
  quantitiesPositive lines ->
  (0 <? sumOfQuantities lines) = negb (length lines =? 0)%nat
  /\ 0 <= sumOfQuantities lines.
Proof.
induction 1 as [|l rest Hl _ [IH1 IH2]]; simpl; [split; [reflexivity|lia]|].
split; [|lia]. apply Z.ltb_lt. lia.
Qed.

(** X15. As long as the quantities of the fetched cart are at least 1,
    the three places that show whether the cart has something in it
    agree.  In the customer view the badge of the header is shown
    exactly when the cart panel shows lines rather than its empty
    message, and the sync badge of the page is shown exactly when,
    besides, the session is known.  In the admin view neither badge is
    shown. *)
Theorem badges_agree_with_the_panel (st : Index.State) :
  quantitiesOk st ->
  Header.showsBadge (Index.isAdmin st) (Index.cartItemCount st)
  = negb (Index.isAdmin st) && negb (CartPanel.showsEmpty (Index.cart st))
  /\ IndexRender.showsSyncBadge st
     = Header.showsBadge (Index.isAdmin st) (Index.cartItemCount st)
       && truthy (Index.sessionId st)
  /\ (CartPanel.showsEmpty (Index.cart st) = true -> Index.cartItemCount st = 0).
Proof.
intros [_ Hcache].
assert (Hcount : (0 <? Index.cartItemCount st)
                 = negb (length (Index.cart st) =? 0)%nat
                 /\ (0 <? length (Index.cart st))%nat
                    = negb (length (Index.cart st) =? 0)%nat
                 /\ ((length (Index.cart st) =? 0)%nat = true
                     -> Index.cartItemCount st = 0)).
{ unfold Index.cartItemCount. rewrite count_from.
  unfold Index.cart, Index.cartData.
  destruct (Index.queryCache st !! Index.sessionId st) as [data|] eqn:Hdata.
  - apply (map_Forall_lookup_1 _ _ _ _ Hcache) in Hdata.
    rewrite quantities_of_view, length_map.
    destruct (positive_sum _ Hdata) as [H1 H2].
    split; [exact H1|]. split.
    + now destruct (length (CartResponse.cart data)).
    + intros Hlen. destruct (CartResponse.cart data); [reflexivity|discriminate Hlen].
  - simpl. repeat split; reflexivity. }
destruct Hcount as [H1 [H2 H3]].
unfold Header.showsBadge, IndexRender.showsSyncBadge, CartPanel.showsEmpty.
rewrite H1, H2.
split; [reflexivity|]. split; [|exact H3].
destruct (Index.isAdmin st), (truthy (Index.sessionId st)),
  (length (Index.cart st) =? 0)%nat; reflexivity.
Qed.

(** A page with two units of one product in its cart. *)
Lemma badges_agree_witness :
  let line := CartLineJson.mk "p1" "Watch" 10 "pbe1" None None None 2 in
  let st :=
    fst (Index.run Index.initial
           [Index.SessionSettled (Ok (SessionResponse.mk "s1" [] 0));
            Index.CartSettled "s1" (Ok (CartResponse.mk [line] 20 2))]) in
  Header.showsBadge (Index.isAdmin st) (Index.cartItemCount st) = true
  /\ IndexRender.showsSyncBadge st = true
  /\ CartPanel.showsEmpty (Index.cart st) = false.
Proof.
intros line st.
assert (Hok : quantitiesOk st).
{ apply run_quantities; [apply quantitiesOk_initial|].
  repeat first [exact I | apply Forall_nil | apply Forall_cons; [simpl|]].
  repeat constructor. simpl. lia. }
destruct (badges_agree_with_the_panel st Hok) as [H1 [H2 _]].
split; [rewrite H1; reflexivity|]. split; [rewrite H2, H1; reflexivity|reflexivity].
Defined.

(** ** The admin login *)

(** X16. The login dialog hands every pair of a non-empty email and a
    non-empty password to the page, which enters the admin view without
    looking at the password; it hands over nothing while one of the two
    is empty.  So a mounted page is in the admin view after a submit
    exactly when it was before or both fields were filled, and two
    passwords lead to the same state and the same actions. *)
Theorem any_filled_login_is_accepted
    (st : Index.State) (email password other : string) :
  Index.mounted st = true ->
  Index.isAdmin (fst (submitAdminLogin st email password))
  = Index.isAdmin st || (truthy email && truthy password)
  /\ (truthy password = true -> truthy other = true ->
      submitAdminLogin st email password = submitAdminLogin st email other)
  /\ (truthy email && truthy password = false ->
      submitAdminLogin st email password = (st, [])).
Proof.
intros Hm. unfold submitAdminLogin, AdminLoginDialog.handleSubmit.
repeat split.
- destruct (truthy email), (truthy password); cbn [negb orb andb];
    rewrite ?orb_false_r; try reflexivity.
  cbn [Index.step]. rewrite Hm.
  pose proof (commit_frame st (Index.setIsAdmin true st)) as [_ [_ [Ha _]]].
  destruct (Index.commit st (Index.setIsAdmin true st)). cbn [fst] in *.
  rewrite Ha. cbn. now rewrite orb_true_r.
- intros -> ->. destruct (truthy email); reflexivity.
- intros H. destruct (truthy email), (truthy password); try discriminate H; reflexivity.
Qed.

(** A login with some password, and a submit without one. *)
Lemma any_filled_login_witness :
  Index.isAdmin (fst (submitAdminLogin Index.initial "a@b.c" "wrong")) = true
  /\ submitAdminLogin Index.initial "a@b.c" "" = (Index.initial, []).
Proof.
destruct (any_filled_login_is_accepted Index.initial "a@b.c" "wrong" "x" eq_refl)
  as [H1 _].
destruct (any_filled_login_is_accepted Index.initial "a@b.c" "" "x" eq_refl)
  as [_ [_ H3]].
split; [rewrite H1; reflexivity|apply H3; reflexivity].
Defined.

(** ** The products request *)

Lemma queryParams_from
    (params : list (string * option ParamValue)) (acc : list (string * ParamValue)) :
  fold_left
    (fun queryParams entry =>
       match snd entry with
       | Some value => queryParams ++ [(fst entry, value)]
       | None => queryParams
       end)
    params acc
  = acc ++ flat_map (fun entry =>
                       match snd entry with
                       | Some value => [(fst entry, value)]
                       | None => []
                       end) params.
Proof.
revert acc. induction params as [|[k [v|]] rest IH]; intros acc; simpl.
- now rewrite app_nil_r.
- rewrite IH. now rewrite <- app_assoc.
- apply IH.
Qed.

(** X21. The query parameters that [getProducts] builds are the entries
    of its argument whose value is defined, each once, in the order of
    the argument and with its value; an entry without a value leaves no
    trace, and nothing else is added. *)
Theorem query_params_are_the_defined_entries
    (params : list (string * option ParamValue)) (key : string) (value : ParamValue) :
  productApi.queryParams params
  = flat_map (fun entry =>
                match snd entry with
                | Some v => [(fst entry, v)]
                | None => []
                end) params
  /\ (In (key, value) (productApi.queryParams params) <-> In (key, Some value) params)
  /\ (length (productApi.queryParams params) <= length params)%nat
  /\ productApi.queryParams (params ++ [(key, None)]) = productApi.queryParams params
  /\ productApi.queryParams (params ++ [(key, Some value)])
     = productApi.queryParams params ++ [(key, value)].
Proof.
assert (Heq : forall ps, productApi.queryParams ps
  = flat_map (fun entry =>
                match snd entry with
                | Some v => [(fst entry, v)]
                | None => []
                end) ps).
{ intros ps. unfold productApi.queryParams. now rewrite queryParams_from. }
split; [apply Heq|]. split; [|split; [|split]].
- rewrite Heq, in_flat_map. split.
  + intros [[k [v|]] [Hin Hx]]; simpl in Hx; [|contradiction].
    destruct Hx as [Hx|[]]. now injection Hx as -> ->.
  + intros Hin. exists (key, Some value). split; [exact Hin|]. simpl. now left.
- rewrite Heq. induction params as [|[k [v|]] rest IH]; simpl; lia.
- rewrite !Heq, flat_map_app. simpl. now rewrite app_nil_r.
- rewrite !Heq, flat_map_app. reflexivity.
Qed.

Lemma filters_one_category (events : list FilterEvent) (f : Filters.t) :
  (length (Filters.selectedCategories f) <= 1)%nat ->
  (length (Filters.selectedCategories (fold_left IndexFilters.step events f)) <= 1)%nat.
Proof.
revert f. induction events as [|e rest IH]; intros f Hf; simpl; [exact Hf|].
apply IH. destruct e; simpl; try exact Hf; try lia.
destruct (truthy value); simpl; lia.
Qed.

(** X17. The products request of the page always carries both price
    bounds, carries the search text exactly when it is not empty, and
    carries one category, the first of the selection.  Through the
    filter controls of the page the selection never holds more than one
    category, so in every filter state the page reaches the request
    carries the whole selection: the parameters are the text if any, the
    selected category if any, and the two bounds, in this order. *)
Theorem products_request_of_the_filters (events : list FilterEvent) :
  let f := fold_left IndexFilters.step events IndexFilters.initial in
  (length (Filters.selectedCategories f) <= 1)%nat
  /\ productApi.queryParams (IndexFilters.productsParams f)
     = (if truthy (Filters.searchQuery f)
        then [("query"%string, PString (Filters.searchQuery f))]
        else [])
       ++ map (fun c => ("category"%string, PString c)) (Filters.selectedCategories f)
       ++ [("price_min"%string, PNumber (fst (Filters.priceRange f)));
           ("price_max"%string, PNumber (snd (Filters.priceRange f)))]
  /\ (forall g : Filters.t,
        productApi.queryParams (IndexFilters.productsParams g)
        = (if truthy (Filters.searchQuery g)
           then [("query"%string, PString (Filters.searchQuery g))]
           else [])
          ++ match Filters.selectedCategories g with
             | c :: _ => [("category"%string, PString c)]
             | [] => []
             end
          ++ [("price_min"%string, PNumber (fst (Filters.priceRange g)));
              ("price_max"%string, PNumber (snd (Filters.priceRange g)))]).
Proof.
intros f.
assert (Hone : (length (Filters.selectedCategories f) <= 1)%nat).
{ apply filters_one_category. simpl. lia. }
split; [exact Hone|]. split.
- unfold productApi.queryParams, IndexFilters.productsParams.
  destruct (Filters.selectedCategories f) as [|c [|c' rest]]; simpl in Hone; [| |lia];
    destruct (truthy (Filters.searchQuery f)); reflexivity.
- intros g. unfold productApi.queryParams, IndexFilters.productsParams.
  destruct (Filters.selectedCategories g); destruct (truthy (Filters.searchQuery g));
    reflexivity.
Qed.

(** X22. Whenever the page does not offer "Reset filters", its products
    request filters neither by text nor by category: it carries the two
    price bounds only, the lower one at most 0 and the upper one at
    least 1000.  After "Reset filters" the link is not offered and the
    bounds are 0 and 1000, whatever the filters were. *)
Theorem hidden_reset_means_no_filter (f : Filters.t) :
  IndexFilters.showsReset f = false ->
  productApi.queryParams (IndexFilters.productsParams f)
  = [("price_min"%string, PNumber (fst (Filters.priceRange f)));
     ("price_max"%string, PNumber (snd (Filters.priceRange f)))]
  /\ (fst (Filters.priceRange f) <= 0)%Q
  /\ (1000 <= snd (Filters.priceRange f))%Q
  /\ (forall g, IndexFilters.showsReset (IndexFilters.step g FiltersCleared) = false)
  /\ (forall g, productApi.queryParams
                  (IndexFilters.productsParams (IndexFilters.step g FiltersCleared))
                = [("price_min"%string, PNumber 0); ("price_max"%string, PNumber 1000)]).
Proof.
unfold IndexFilters.showsReset. intros H.
apply orb_false_elim in H as [H Hmax].
apply orb_false_elim in H as [H Hmin].
apply orb_false_elim in H as [Hq Hc].
apply negb_false_iff in Hmin, Hmax. apply Qle_bool_iff in Hmin, Hmax.
split.
- unfold productApi.queryParams, IndexFilters.productsParams. rewrite Hq.
  destruct (Filters.selectedCategories f); [reflexivity|discriminate Hc].
- repeat split; assumption.
Qed.

(** The filters after a search text was typed and removed again. *)
Lemma hidden_reset_witness :
  let f :=
    fold_left IndexFilters.step [SearchChanged "watch"; SearchChanged ""]
      IndexFilters.initial in
  productApi.queryParams (IndexFilters.productsParams f)
  = [("price_min"%string, PNumber 0); ("price_max"%string, PNumber 1000)].
Proof.
intros f. exact (proj1 (hidden_reset_means_no_filter f eq_refl)).
Defined.

(** ** The line under the name of a product *)

Lemma append_truthy (a b : string) : truthy a = true -> truthy (a ++ b) = true.
Proof. destruct a; [discriminate|reflexivity]. Qed.

(** X18. The line that joins the color and the size of a product never
    shows a separator on its own: it is empty when both are empty, it is
    the one that is not empty when the other is, and it is the color, the
    separator and the size when both are there.  It is not empty exactly
    when the card shows it. *)
Theorem subtitle_has_no_dangling_separator (sep color size : string) :
  joinTruthy sep [color; size]
  = (if truthy color
     then if truthy size then (color ++ sep ++ size)%string else color
     else size)
  /\ truthy (joinTruthy sep [color; size]) = ProductCard.showsSubtitle color size.
Proof.
unfold joinTruthy, ProductCard.showsSubtitle.
destruct (truthy color) eqn:Hc, (truthy size) eqn:Hs; cbn [List.filter];
  rewrite ?Hc, ?Hs; cbn [String.concat orb].
- split; [reflexivity|]. now apply append_truthy.
- split; [reflexivity|exact Hc].
- split; [reflexivity|exact Hs].
- unfold truthy in Hs. apply negb_false_iff, String.eqb_eq in Hs. subst size.
  split; reflexivity.
Qed.

(** ** The messages of failed requests *)

(** X20. Every cart function and the order function of api.ts rejects
    when the response is not ok or the request fails.  A cart mutation or
    an order rejects with the detail of the response when that is a
    string that is not empty, with the own message of the operation when
    the detail is missing, falsy or the empty string, with the string
    form of the detail when that is some other value, and with the
    message of the failure when there is no usable response.  The two
    reads, of the cart and of the session, reject with their own message
    whatever a response that is not ok says.  The toast of a failed add
    shows that message, which is empty when the detail is an empty
    list. *)
Theorem rejections_carry_a_message
    (detail : option string) (text failure : string) (st : Index.State) :
  let message :=
    fun (p : Promise MutationResult.t) =>
      match p with
      | Rejected m => m
      | Resolved _ => ""%string
      end in
  Forall
    (fun entry : (Response MutationResult.t -> Promise MutationResult.t) * string =>
       let (f, own) := entry in
       (forall r, (forall json, r <> Ok json) -> is_rejected (f r) = true)
       /\ (forall d, detail = Some d -> truthy d = true -> f (NotOk detail) = Rejected d)
       /\ (detail = None \/ detail = Some ""%string -> f (NotOk detail) = Rejected own)
       /\ f (NotOkValue text) = Rejected text
       /\ f (FetchFailed failure) = Rejected failure)
    [(cartApi.addToCart, "Failed to add to cart"%string);
     (cartApi.updateCartItem, "Failed to update cart"%string);
     (cartApi.removeFromCart, "Failed to remove from cart"%string);
     (cartApi.clearCart, "Failed to clear cart"%string);
     (orderApi.createOrder, "Failed to create order"%string)]
  /\ cartApi.getCart (NotOk detail) = Rejected "Failed to fetch cart"
  /\ cartApi.getCart (NotOkValue text) = Rejected "Failed to fetch cart"
  /\ cartApi.getCart (FetchFailed failure) = Rejected failure
  /\ cartApi.getOrCreateSession (NotOk detail) = Rejected "Failed to get session"
  /\ cartApi.getOrCreateSession (NotOkValue text) = Rejected "Failed to get session"
  /\ cartApi.getOrCreateSession (FetchFailed failure) = Rejected failure
  /\ (forall r,
        is_rejected (cartApi.addToCart r) = true ->
        Index.step st (Index.AddSettled r)
        = (st, [Index.Toast "Error" (Some (message (cartApi.addToCart r))) true]))
  /\ Index.step st (Index.AddSettled (NotOkValue ""))
     = (st, [Index.Toast "Error" (Some ""%string) true]).
Proof.
intros message.
assert (Hdetail : forall own d,
  detail = Some d -> truthy d = true -> js_or detail own = d).
{ intros own d -> Hd. unfold js_or. unfold truthy in Hd.
  apply negb_true_iff in Hd. now rewrite Hd. }
assert (Hown : forall own,
  detail = None \/ detail = Some ""%string -> js_or detail own = own).
{ intros own [-> | ->]; reflexivity. }
split.
{ repeat constructor; cbn;
    try (intros r Hr; destruct r as [json| | |]; [now destruct (Hr json)|reflexivity..]);
    try (intros d Hd Ht; f_equal; now apply Hdetail);
    try (intros Hd; f_equal; now apply Hown). }
repeat (split; [reflexivity|]).
split; [|reflexivity].
intros r Hr. cbn [Index.step]. destruct (cartApi.addToCart r); [discriminate Hr|reflexivity].
Qed.

(** A failed add whose response has no detail, one whose detail is a
    text, and one whose detail is an empty list. *)
Lemma rejections_carry_a_message_witness :
  cartApi.addToCart (NotOk None) = Rejected "Failed to add to cart"
  /\ cartApi.addToCart (NotOk (Some "Product unavailable"%string))
     = Rejected "Product unavailable"
  /\ snd (Index.step Index.initial (Index.AddSettled (NotOkValue "")))
     = [Index.Toast "Error" (Some ""%string) true].
Proof.
pose proof (rejections_carry_a_message None "" "" Index.initial) as [Hnone [_ [_ [_ [_ [_ [_ [Htoast _]]]]]]]].
pose proof (rejections_carry_a_message (Some "Product unavailable"%string) "" "" Index.initial)
  as [Htext _].
apply Forall_inv in Hnone. destruct Hnone as [_ [_ [Hnone _]]].
apply Forall_inv in Htext. destruct Htext as [_ [Htext _]].
split; [exact (Hnone (or_introl eq_refl))|].
split; [exact (Htext _ eq_refl eq_refl)|].
rewrite (Htoast (NotOkValue "") eq_refl). reflexivity.
Defined.

(** ** The session request *)

(** X23. A session response that repeats the session id of the page
    changes nothing and sends nothing.  A response with another id makes
    the page take that id, replace its interval, ask for the session once
    more and, in the customer view, read the cart of the new session at
    once: the exchange of session requests ends only when the server
    repeats an id. *)
Theorem session_response_with_a_new_id
    (st : Index.State) (session : SessionResponse.t) :
  Index.mounted st = true ->
  let id := SessionResponse.session_id session in
  (id = Index.sessionId st ->
   Index.step st (Index.SessionSettled (Ok session)) = (st, []))
  /\ (id <> Index.sessionId st ->
      Index.step st (Index.SessionSettled (Ok session))
      = (Index.set_interval (Some (id, Index.isAdmin st)) (Index.setSessionId id st),
         Index.Fetch (GetSession None)
         :: (if truthy id && negb (Index.isAdmin st)
             then [Index.Fetch (GetCart id)]
             else []))).
Proof.
intros Hm id. unfold id. cbn [Index.step cartApi.getOrCreateSession]. rewrite Hm.
unfold Index.commit, Index.depsChanged.
cbn [Index.sessionId Index.isAdmin Index.setSessionId].
rewrite Bool.eqb_reflx. cbn [negb]. rewrite orb_false_r.
split.
- intros ->. rewrite String.eqb_refl. cbn [negb].
  destruct st; reflexivity.
- intros Hne. apply not_eq_sym in Hne. apply String.eqb_neq in Hne.
  rewrite Hne. cbn [negb]. reflexivity.
Qed.

(** The first session response of a page, and the same response again. *)
Lemma session_response_witness :
  let session := SessionResponse.mk "s1" [] 0 in
  let st := fst (Index.step Index.initial (Index.SessionSettled (Ok session))) in
  Index.step Index.initial (Index.SessionSettled (Ok session))
  = (st, [Index.Fetch (GetSession None); Index.Fetch (GetCart "s1")])
  /\ Index.step st (Index.SessionSettled (Ok session)) = (st, []).
Proof.
intros session st.
destruct (session_response_with_a_new_id Index.initial session eq_refl) as [_ Hnew].
destruct (session_response_with_a_new_id st session eq_refl) as [Hsame _].
split; [rewrite Hnew; [reflexivity|discriminate]|apply Hsame; reflexivity].
Defined.


(** The parameters of a search for "watch" without a category. *)
Lemma query_params_witness :
  let params :=
    [("query"%string, Some (PString "watch")); ("category"%string, None);
     ("price_min"%string, Some (PNumber 0)); ("price_max"%string, Some (PNumber 1000))] in
  In ("query"%string, PString "watch") (productApi.queryParams params)
  /\ length (productApi.queryParams params) = 3%nat.
Proof.
intros params.
destruct (query_params_are_the_defined_entries params "query" (PString "watch"))
  as [_ [Hin _]].
split; [apply Hin; left; reflexivity|reflexivity].
Defined.
